(** * Revista Nacional de las Ciencias para Estudiantes: the React client

    A shallow embedding of [frontend/src/App.js]: the session provider
    ([AuthProvider]), the role gates of [Header] and [AdminDashboard], the
    submission form ([SubmitPaper]), the catalogue ([Papers]) and the review
    handler ([AdminDashboard.handleReview]).

    Conventions of the embedding.
    - An [async] function is a computation in the monad [M]: it threads the
      browser and component state and either returns a value or throws.
      [await] is sequencing; a rejected promise is a thrown error.
    - The HTTP API is a parameter ([Api]): every endpoint maps the requests
      issued so far and the new request to what axios resolves or rejects
      with.  Every call is appended to the [requests] log.
    - JavaScript and browser built-ins the source calls but does not define
      ([parseInt], [Date], the constraint validation of form controls) are
      parameters of the sections that use them. *)

From Stdlib Require Import ZArith QArith.
From stdpp Require Import base option strings gmap list pretty.

Set Warnings "-register-all".

Local Open Scope Z_scope.
Local Open Scope string_scope.
Local Open Scope list_scope.

(** ** JavaScript values *)

(** Values that travel as JSON bodies or sit in React state cells.  Numbers
    are restricted to [NaN] and to the integers that JavaScript holds exactly
    and prints in plain decimal (magnitude below 2^53); identifiers, tokens
    and dois travel as strings. *)
Inductive jsval : Type :=
  | JUndefined
  | JNull
  | JBool (b : bool)
  | JNaN
  | JNum (z : Z)
  | JStr (s : string)
  | JArr (items : list jsval)
  | JObj (fields : list (string * jsval)).

(** A thrown JavaScript error.  [err_response] is the [response] property
    axios attaches to an error when the server answered with a failure
    status: the status code and the response body. *)
Record js_error : Type := mk_error {
  err_name : string;
  err_message : string;
  err_response : option (nat * jsval)
}.

Definition TypeError (msg : string) : js_error :=
  {| err_name := "TypeError"; err_message := msg; err_response := None |}.

Inductive js_result (A : Type) : Type :=
  | Returned (a : A)
  | Thrown (e : js_error).
Arguments Returned {A} a.
Arguments Thrown {A} e.

(** [ToBoolean]. *)
Definition truthy (v : jsval) : bool :=
  match v with
  | JUndefined | JNull | JNaN => false
  | JBool b => b
  | JNum z => negb (Z.eqb z 0)
  | JStr s => negb (String.eqb s "")
  | JArr _ | JObj _ => true
  end.

Fixpoint assoc (k : string) (fields : list (string * jsval)) : option jsval :=
  match fields with
  | [] => None
  | (k', v) :: rest => if String.eqb k k' then Some v else assoc k rest
  end.

(** Property read [v.k] of a data property: [undefined] when absent or when
    [v] is a primitive, a [TypeError] on [null] and [undefined]. *)
Definition get_prop (v : jsval) (k : string) : js_result jsval :=
  match v with
  | JUndefined => Thrown (TypeError ("Cannot read properties of undefined (reading '" +:+ k +:+ "')"))
  | JNull => Thrown (TypeError ("Cannot read properties of null (reading '" +:+ k +:+ "')"))
  | JObj fields => Returned (default JUndefined (assoc k fields))
  | _ => Returned JUndefined
  end.

(** Optional chaining [v?.k]. *)
Definition get_opt (v : jsval) (k : string) : jsval :=
  match v with
  | JObj fields => default JUndefined (assoc k fields)
  | _ => JUndefined
  end.

(** Strict equality [v === 'literal'] against a string literal. *)
Definition is_string (v : jsval) (lit : string) : bool :=
  match v with
  | JStr s => String.eqb s lit
  | _ => false
  end.

(** [Array.prototype.join] on strings. *)
Fixpoint join (sep : string) (items : list string) : string :=
  match items with
  | [] => ""
  | [x] => x
  | x :: rest => x +:+ sep +:+ join sep rest
  end.

(** [ToString]; inside an array [null] and [undefined] print as nothing. *)
Fixpoint ToString (v : jsval) : string :=
  match v with
  | JUndefined => "undefined"
  | JNull => "null"
  | JBool true => "true"
  | JBool false => "false"
  | JNaN => "NaN"
  | JNum z => pretty z
  | JStr s => s
  | JArr items =>
      join "," (map (fun x => match x with
                              | JUndefined | JNull => ""
                              | _ => ToString x
                              end) items)
  | JObj _ => "[object Object]"
  end.

(** [a || b]. *)
Definition js_or (a b : jsval) : jsval := if truthy a then a else b.

(** [s.includes(needle)]. *)
Fixpoint includes (needle s : string) : bool :=
  String.prefix needle s
  || match s with
     | EmptyString => false
     | String _ rest => includes needle rest
     end.

(** The class of the message box of the forms:
    [`message ${message.includes('Error') ? 'error' : 'success'}`]. *)
Definition message_class (message : string) : string :=
  "message " +:+ (if includes "Error" message then "error" else "success").

(** ** The browser and the HTTP API *)

(** A [FormData] entry value: text, or a [File] (kept by its name). *)
Inductive form_value : Type :=
  | FText (s : string)
  | FFile (name : string).

#[export] Instance form_value_eq_dec : EqDecision form_value.
Proof. solve_decision. Defined.

(** A request handed to axios.  [params] is the query string as the list of
    pairs given to [URLSearchParams]; [authorization] is the header of that
    name; [body] is the [FormData] in append order. *)
Record Request : Type := mk_request {
  method : string;
  url : string;
  params : list (string * string);
  authorization : option string;
  body : list (string * form_value)
}.

(** A manuscript as [GET /papers] lists it: the properties the components
    read.  [id] is kept as the text it prints as in a template literal. *)
Record Paper : Type := mk_paper {
  id : string;
  title : string;
  authors : list string;
  institution : string;
  category : string;
  abstract : string;
  keywords : list string;
  word_count : Z;
  file_url : string;
  submission_date : string;
  doi : jsval
}.

(** A reviewer application as [GET /admin/applications] lists it. *)
Record Application : Type := mk_application {
  app_id : string;
  app_name : string;
  app_email : string;
  app_institution : string;
  specialization : list string;
  experience : string;
  cv_url : string;
  certificates_url : string
}.

(** What the component code can touch outside React state. *)
Record Browser : Type := mk_browser {
  localStorage : gmap string string;
  (** every request issued so far, oldest first *)
  requests : list Request;
  (** [console.error(label, error)] calls, oldest first *)
  console : list (string * js_error);
  (** pending [setTimeout(() => navigate(path), ms)] callbacks *)
  timers : list (nat * string);
  (** text typed into the comment field of each pending paper, by paper id *)
  comments : gmap string string
}.

(** The state a component function runs in: the browser and the component's
    own React state cells. *)
Record Env (S : Type) : Type := mk_env {
  browser : Browser;
  state : S
}.
Arguments mk_env {S} browser state.
Arguments browser {S} e.
Arguments state {S} e.

(** The collaborator API.  Each endpoint receives the requests issued before
    and the request itself, and answers with the body axios resolves with or
    the error it rejects with. *)
Record Api : Type := mk_api {
  POST_token : list Request -> Request -> js_result jsval;
  GET_current_user : list Request -> Request -> js_result jsval;
  POST_submit_paper : list Request -> Request -> js_result jsval;
  GET_papers : list Request -> Request -> js_result (list Paper);
  GET_admin_applications : list Request -> Request -> js_result (list Application);
  POST_review : list Request -> Request -> js_result jsval
}.

(** ** The monad of component code *)

Definition M (S A : Type) : Type := Env S -> js_result A * Env S.

#[export] Instance M_ret {S} : MRet (M S) :=
  fun A a e => (Returned a, e).

(** Sequencing ([await], [;]): a throw skips the rest. *)
#[export] Instance M_bind {S} : MBind (M S) :=
  fun A B k m e => match m e with
                   | (Returned a, e') => k a e'
                   | (Thrown err, e') => (Thrown err, e')
                   end.

(** [try { body } catch (error) { handler error }]. *)
Definition try_catch {S A} (body : M S A) (handler : js_error -> M S A) : M S A :=
  fun e => match body e with
           | (Returned a, e') => (Returned a, e')
           | (Thrown err, e') => handler err e'
           end.

(** [try { body } finally { final }]: [final] always runs; when it completes
    normally the outcome of [body] stands. *)
Definition try_finally {S A} (body : M S A) (final : M S unit) : M S A :=
  fun e => match body e with
           | (r, e') => match final e' with
                        | (Returned _, e'') => (r, e'')
                        | (Thrown err, e'') => (Thrown err, e'')
                        end
           end.

(** Lifting a pure evaluation that may throw. *)
Definition eval {S A} (r : js_result A) : M S A := fun e => (r, e).

Definition set_state {S} (f : S -> S) : M S unit :=
  fun e => (Returned tt, mk_env (browser e) (f (state e))).

Definition with_browser {S} (f : Browser -> Browser) : M S unit :=
  fun e => (Returned tt, mk_env (f (browser e)) (state e)).

(** A function of one component called from a component that holds further
    state cells of its own: it runs on the first component's cells. *)
Definition zoom_fst {S T A} (m : M S A) : M (S * T) A :=
  fun e => let '(r, e') := m (mk_env (browser e) (state e).1) in
           (r, mk_env (browser e') (state e', (state e).2)).

(** [localStorage.getItem(key)]: [None] is [null]. *)
Definition getItem {S} (key : string) : M S (option string) :=
  fun e => (Returned (localStorage (browser e) !! key), e).

Definition set_localStorage (f : gmap string string -> gmap string string) (b : Browser) : Browser :=
  mk_browser (f (localStorage b)) (requests b) (console b) (timers b) (comments b).

Definition setItem {S} (key value : string) : M S unit :=
  with_browser (set_localStorage (insert key value)).

Definition removeItem {S} (key : string) : M S unit :=
  with_browser (set_localStorage (delete key)).

Definition console_error {S} (label : string) (err : js_error) : M S unit :=
  with_browser (fun b =>
    mk_browser (localStorage b) (requests b) (console b ++ [(label, err)]) (timers b) (comments b)).

Definition setTimeout_navigate {S} (path : string) (ms : nat) : M S unit :=
  with_browser (fun b =>
    mk_browser (localStorage b) (requests b) (console b) (timers b ++ [(ms, path)]) (comments b)).

Definition log_request (r : Request) (b : Browser) : Browser :=
  mk_browser (localStorage b) (requests b ++ [r]) (console b) (timers b) (comments b).

(** An axios call: the request is recorded, then the endpoint answers. *)
Definition axios {S A} (endpoint : list Request -> Request -> js_result A) (r : Request) : M S A :=
  fun e => (endpoint (requests (browser e)) r,
            mk_env (log_request r (browser e)) (state e)).

(** [process.env.REACT_APP_BACKEND_URL], a constant of the deployment, taken
    to be set to the empty text (the client served from the backend's
    origin).  The statements below name addresses through [API] and the
    request definitions, never by their literal text. *)
Definition BACKEND_URL : string := "".

Definition API : string := BACKEND_URL +:+ "/api".

(** ** AuthProvider: the session *)

Module AuthProvider.

(** [useState(null)] and [useState(true)]. *)
Record State : Type := mk_state {
  user : jsval;
  loading : bool
}.

Definition initial : State := {| user := JNull; loading := true |}.

Definition setUser (v : jsval) : M State unit :=
  set_state (fun s => {| user := v; loading := loading s |}).

Definition setLoading (b : bool) : M State unit :=
  set_state (fun s => {| user := user s; loading := b |}).

Definition current_user_request (token : jsval) : Request :=
  {| method := "GET"; url := API +:+ "/current_user"; params := [];
     authorization := Some ("Bearer " +:+ ToString token); body := [] |}.

Definition token_request (email password : string) : Request :=
  {| method := "POST"; url := API +:+ "/token"; params := [];
     authorization := None;
     body := [("username", FText email); ("password", FText password)] |}.

Section WithApi.
Context (api : Api).

Definition fetchCurrentUser (token : jsval) : M State unit :=
  try_finally
    (try_catch
       (response ← axios (GET_current_user api) (current_user_request token);
        setUser response)
       (fun _ => removeItem "token"))
    (setLoading false).

Definition login (email password : string) : M State jsval :=
  response ← axios (POST_token api) (token_request email password);
  token ← eval (get_prop response "access_token");
  setItem "token" (ToString token);;
  fetchCurrentUser token;;
  mret response.

(** The mount effect: resolve the identity from a stored token. *)
Definition restore : M State unit :=
  token ← getItem "token";
  match token with
  | Some t => if String.eqb t "" then setLoading false
              else fetchCurrentUser (JStr t)
  | None => setLoading false
  end.

End WithApi.

Definition logout : M State unit :=
  removeItem "token";;
  setUser JNull.

Definition register_request (userData : list (string * string)) : Request :=
  {| method := "POST"; url := API +:+ "/register"; params := [];
     authorization := None;
     body := map (fun kv => (kv.1, FText kv.2)) userData |}.

Section WithRegister.
(** [POST /register]. *)
Context (POST_register : list Request -> Request -> js_result jsval).

(** [register]; [userData] is the object handed in, as its keys in
    [Object.keys] order with their (text) values.  The response is kept by
    its body. *)
Definition register (userData : list (string * string)) : M State jsval :=
  axios POST_register (register_request userData).

End WithRegister.

End AuthProvider.

(** ** Header: the link to the admin console *)

Module Header.

(** [user?.role === 'admin' || user?.role === 'super_admin']. *)
Definition shows_admin_link (user : jsval) : bool :=
  is_string (get_opt user "role") "admin"
  || is_string (get_opt user "role") "super_admin".

End Header.

(** ** SubmitPaper: the submission form *)

Module SubmitPaper.

(** The [formData] state object; text controls hold strings, [file] is
    [null] ([None]) or the chosen [File]. *)
Record FormData : Type := mk_form {
  title : string;
  authors : string;
  institution : string;
  email : string;
  category : string;
  abstract : string;
  keywords : string;
  word_count : string;
  file : option string
}.

Record State : Type := mk_state {
  formData : FormData;
  loading : bool;
  message : string
}.

Definition initial : State :=
  {| formData := mk_form "" "" "" "" "" "" "" "" None;
     loading := false; message := "" |}.

Definition setLoading (b : bool) : M State unit :=
  set_state (fun s => {| formData := formData s; loading := b; message := message s |}).

Definition setMessage (m : string) : M State unit :=
  set_state (fun s => {| formData := formData s; loading := loading s; message := m |}).

(** The flags of the constraint validation API that the controls of this
    form can raise. *)
Inductive validity_flag : Type :=
  | valueMissing
  | typeMismatch
  | rangeUnderflow
  | rangeOverflow
  | stepMismatch.

(** What pressing the submit button leads to. *)
Inductive press_outcome : Type :=
  | Disabled
  | Invalid (problems : list (string * validity_flag))
  | Submitted (r : js_result unit).

Definition required (name value : string) : list (string * validity_flag) :=
  if String.eqb value "" then [(name, valueMissing)] else [].

Definition is_integer (q : Q) : bool := (Qden (Qred q) =? 1)%positive.

Section WithBrowser.
(** [parseInt(string)]. *)
Context (parseInt : string -> jsval).
(** The number a [type="number"] control reads its value as; [None] when the
    value is blank. *)
Context (valueAsNumber : string -> option Q).
(** The e-mail syntax check of a [type="email"] control. *)
Context (valid_email : string -> bool).
Context (api : Api).

(** [<input type="number" min="2000" max="8000" required>]: the step is the
    default 1, counted from [min]. *)
Definition number_validity (name value : string) : list (string * validity_flag) :=
  match valueAsNumber value with
  | None => [(name, valueMissing)]
  | Some q =>
      (if Qle_bool 2000 q then [] else [(name, rangeUnderflow)])
      ++ (if Qle_bool q 8000 then [] else [(name, rangeOverflow)])
      ++ (if is_integer q then [] else [(name, stepMismatch)])
  end.

Definition email_validity (name value : string) : list (string * validity_flag) :=
  if String.eqb value "" then [(name, valueMissing)]
  else if valid_email value then [] else [(name, typeMismatch)].

(** The constraints the controls of the form declare, in document order. *)
Definition form_validity (fd : FormData) : list (string * validity_flag) :=
  required "title" (title fd)
  ++ required "authors" (authors fd)
  ++ required "institution" (institution fd)
  ++ email_validity "email" (email fd)
  ++ required "category" (category fd)
  ++ required "abstract" (abstract fd)
  ++ required "keywords" (keywords fd)
  ++ number_validity "word_count" (word_count fd)
  ++ match file fd with
     | None => [("file", valueMissing)]
     | Some _ => []
     end.

(** A form every control of which is satisfied: every text control filled,
    the e-mail well formed, a file chosen, and the word count a whole number
    from 2000 to 8000. *)
Definition complete (fd : FormData) : Prop :=
  title fd <> "" /\ authors fd <> "" /\ institution fd <> ""
  /\ (email fd <> "" /\ valid_email (email fd) = true)
  /\ category fd <> "" /\ abstract fd <> "" /\ keywords fd <> ""
  /\ (exists q, valueAsNumber (word_count fd) = Some q
                /\ (2000 <= q)%Q /\ (q <= 8000)%Q /\ is_integer q = true)
  /\ (exists f, file fd = Some f).

(** [Object.keys(formData).forEach(...)] into a [FormData], in key order. *)
Definition submitData (fd : FormData) : list (string * form_value) :=
  [ ("title", FText (title fd));
    ("authors", FText (authors fd));
    ("institution", FText (institution fd));
    ("email", FText (email fd));
    ("category", FText (category fd));
    ("abstract", FText (abstract fd));
    ("keywords", FText (keywords fd));
    ("word_count", FText (ToString (parseInt (word_count fd))));
    ("file", match file fd with
             | None => FText "null"
             | Some name => FFile name
             end) ].

Definition submit_request (fd : FormData) : Request :=
  {| method := "POST"; url := API +:+ "/submit-paper"; params := [];
     authorization := None; body := submitData fd |}.

(** [error.response?.data?.detail || error.message]. *)
Definition error_detail (error : js_error) : jsval :=
  js_or (match err_response error with
         | Some (_, data) => get_opt data "detail"
         | None => JUndefined
         end)
        (JStr (err_message error)).

(** [handleSubmit], with the [formData] of the render it was created in. *)
Definition handleSubmit (fd : FormData) : M State unit :=
  setLoading true;;
  setMessage "";;
  try_finally
    (try_catch
       (response ← axios (POST_submit_paper api) (submit_request fd);
        doi ← eval (get_prop response "doi");
        setMessage ("Paper enviado exitosamente. DOI: " +:+ ToString doi);;
        setTimeout_navigate "/papers" 3000)
       (fun error =>
          setMessage ("Error al enviar el paper: " +:+ ToString (error_detail error))))
    (setLoading false).

(** Pressing "Enviar Paper": the button is disabled while [loading]; the
    browser validates the controls and fires the submit event, and with it
    [handleSubmit], only when every constraint holds.  This is the only
    caller of [handleSubmit]. *)
Definition press_submit : Env State -> press_outcome * Env State :=
  fun e =>
    if loading (state e) then (Disabled, e)
    else match form_validity (formData (state e)) with
         | [] => let '(r, e') := handleSubmit (formData (state e)) e in
                 (Submitted r, e')
         | problems => (Invalid problems, e)
         end.

End WithBrowser.

End SubmitPaper.

(** ** ApplyAdmin: the reviewer application form *)

Module ApplyAdmin.

Record FormData : Type := mk_form {
  name : string;
  email : string;
  institution : string;
  cv : option string;
  motivation_letter : string;
  specialization : string;
  references : string;
  experience : string;
  certificates : option string
}.

Record State : Type := mk_state {
  formData : FormData;
  loading : bool;
  message : string
}.

Definition initial : State :=
  {| formData := mk_form "" "" "" None "" "" "" "" None;
     loading := false; message := "" |}.

Definition setLoading (b : bool) : M State unit :=
  set_state (fun s => {| formData := formData s; loading := b; message := message s |}).

Definition setMessage (m : string) : M State unit :=
  set_state (fun s => {| formData := formData s; loading := loading s; message := m |}).

Definition file_value (f : option string) : form_value :=
  match f with
  | None => FText "null"
  | Some name => FFile name
  end.

(** [Object.keys(formData).forEach(key => submitData.append(key, formData[key]))]. *)
Definition submitData (fd : FormData) : list (string * form_value) :=
  [ ("name", FText (name fd));
    ("email", FText (email fd));
    ("institution", FText (institution fd));
    ("cv", file_value (cv fd));
    ("motivation_letter", FText (motivation_letter fd));
    ("specialization", FText (specialization fd));
    ("references", FText (references fd));
    ("experience", FText (experience fd));
    ("certificates", file_value (certificates fd)) ].

Definition apply_request (fd : FormData) : Request :=
  {| method := "POST"; url := API +:+ "/apply-admin"; params := [];
     authorization := None; body := submitData fd |}.

Definition file_required (name : string) (f : option string)
    : list (string * SubmitPaper.validity_flag) :=
  match f with
  | None => [(name, SubmitPaper.valueMissing)]
  | Some _ => []
  end.

Section WithBrowser.
Context (valid_email : string -> bool).
(** [POST /apply-admin]. *)
Context (POST_apply_admin : list Request -> Request -> js_result jsval).

(** The constraints the controls declare, in document order: every control
    is [required], the e-mail control also checks its syntax. *)
Definition form_validity (fd : FormData) : list (string * SubmitPaper.validity_flag) :=
  SubmitPaper.required "name" (name fd)
  ++ SubmitPaper.email_validity valid_email "email" (email fd)
  ++ SubmitPaper.required "institution" (institution fd)
  ++ file_required "cv" (cv fd)
  ++ SubmitPaper.required "motivation_letter" (motivation_letter fd)
  ++ SubmitPaper.required "specialization" (specialization fd)
  ++ SubmitPaper.required "references" (references fd)
  ++ SubmitPaper.required "experience" (experience fd)
  ++ file_required "certificates" (certificates fd).

(** A form every control of which is satisfied: the seven text controls
    filled, the e-mail well formed, both files chosen. *)
Definition complete (fd : FormData) : Prop :=
  name fd <> "" /\ (email fd <> "" /\ valid_email (email fd) = true)
  /\ institution fd <> "" /\ (exists f, cv fd = Some f)
  /\ motivation_letter fd <> "" /\ specialization fd <> ""
  /\ references fd <> "" /\ experience fd <> ""
  /\ (exists f, certificates fd = Some f).

(** [handleSubmit], with the [formData] of the render it was created in. *)
Definition handleSubmit (fd : FormData) : M State unit :=
  setLoading true;;
  setMessage "";;
  try_finally
    (try_catch
       (axios POST_apply_admin (apply_request fd);;
        setMessage "Solicitud enviada exitosamente. Te contactaremos pronto.";;
        setTimeout_navigate "/" 3000)
       (fun error =>
          setMessage ("Error al enviar la solicitud: "
                      +:+ ToString (SubmitPaper.error_detail error))))
    (setLoading false).

(** Pressing "Enviar Solicitud": as for the paper form, the button is
    disabled while [loading] and the submit event fires only when every
    constraint holds. *)
Definition press_submit : Env State -> SubmitPaper.press_outcome * Env State :=
  fun e =>
    if loading (state e) then (SubmitPaper.Disabled, e)
    else match form_validity (formData (state e)) with
         | [] => let '(r, e') := handleSubmit (formData (state e)) e in
                 (SubmitPaper.Submitted r, e')
         | problems => (SubmitPaper.Invalid problems, e)
         end.

End WithBrowser.

End ApplyAdmin.

(** ** Login: the sign-in and registration page *)

Module Login.

Record FormData : Type := mk_form {
  email : string;
  password : string;
  name : string;
  institution : string;
  study_area : string
}.

(** The state cells of the page; [navigated] lists the paths handed to
    [navigate], oldest first. *)
Record State : Type := mk_state {
  isLogin : bool;
  formData : FormData;
  loading : bool;
  message : string;
  navigated : list string
}.

Definition initial : State :=
  {| isLogin := true; formData := mk_form "" "" "" "" "";
     loading := false; message := ""; navigated := [] |}.

(** The page runs inside the [AuthProvider]: its handler works on the
    session cells and on its own. *)
Definition Cells : Type := AuthProvider.State * State.

Definition set_page (f : State -> State) : M Cells unit :=
  set_state (fun c => (c.1, f c.2)).

Definition setIsLogin (b : bool) : M Cells unit :=
  set_page (fun s => {| isLogin := b; formData := formData s; loading := loading s;
                        message := message s; navigated := navigated s |}).

Definition setLoading (b : bool) : M Cells unit :=
  set_page (fun s => {| isLogin := isLogin s; formData := formData s; loading := b;
                        message := message s; navigated := navigated s |}).

Definition setMessage (m : string) : M Cells unit :=
  set_page (fun s => {| isLogin := isLogin s; formData := formData s; loading := loading s;
                        message := m; navigated := navigated s |}).

Definition navigate (path : string) : M Cells unit :=
  set_page (fun s => {| isLogin := isLogin s; formData := formData s; loading := loading s;
                        message := message s; navigated := navigated s ++ [path] |}).

(** The [formData] object as [register] walks it. *)
Definition userData (fd : FormData) : list (string * string) :=
  [ ("email", email fd); ("password", password fd); ("name", name fd);
    ("institution", institution fd); ("study_area", study_area fd) ].

Section WithApi.
Context (api : Api).
Context (POST_register : list Request -> Request -> js_result jsval).

(** [handleSubmit], with the [isLogin] and [formData] of the render it was
    created in. *)
Definition handleSubmit (is_login : bool) (fd : FormData) : M Cells unit :=
  setLoading true;;
  setMessage "";;
  try_finally
    (try_catch
       (if is_login
        then zoom_fst (AuthProvider.login api (email fd) (password fd));;
             navigate "/"
        else zoom_fst (AuthProvider.register POST_register (userData fd));;
             setMessage "Usuario registrado exitosamente. Ahora puedes iniciar sesión.";;
             setIsLogin true)
       (fun error => setMessage ("Error: " +:+ ToString (SubmitPaper.error_detail error))))
    (setLoading false).

End WithApi.

End Login.

(** ** Papers: the catalogue *)

Module Papers.

Record Filters : Type := mk_filters {
  f_category : string;
  f_author : string;
  f_institution : string
}.

Record State : Type := mk_state {
  papers : list Paper;
  loading : bool;
  filters : Filters
}.

Definition initial : State :=
  {| papers := []; loading := true; filters := mk_filters "" "" "" |}.

Definition setPapers (l : list Paper) : M State unit :=
  set_state (fun s => {| papers := l; loading := loading s; filters := filters s |}).

Definition setLoading (b : bool) : M State unit :=
  set_state (fun s => {| papers := papers s; loading := b; filters := filters s |}).

(** [if (filters[key]) params.append(key, filters[key])], in key order. *)
Definition search_params (f : Filters) : list (string * string) :=
  filter (fun kv => kv.2 ≠ "")
    [("category", f_category f); ("author", f_author f); ("institution", f_institution f)].

Definition papers_request (f : Filters) : Request :=
  {| method := "GET"; url := API +:+ "/papers"; params := search_params f;
     authorization := None; body := [] |}.

(** A template literal: literal chunks and substitutions, each substitution
    converted with [ToString]. *)
Inductive chunk : Type :=
  | Lit (s : string)
  | Sub (v : jsval).

Definition template (chunks : list chunk) : string :=
  foldr (fun c acc => match c with
                      | Lit s => s +:+ acc
                      | Sub v => ToString v +:+ acc
                      end) "" chunks.

(** What the page shows below the filters. *)
Inductive view : Type :=
  | Cargando
  | NoSeEncontraron
  | Cards (l : list Paper).

Definition render (s : State) : view :=
  if loading s then Cargando
  else match papers s with
       | [] => NoSeEncontraron
       | l => Cards l
       end.

Section WithApi.
Context (api : Api).
(** [new Date(s).getFullYear()]: a number, [NaN] on an invalid date. *)
Context (getFullYear : string -> jsval).

(** [fetchPapers], with the [filters] of the render it was created in. *)
Definition fetchPapers (f : Filters) : M State unit :=
  try_finally
    (try_catch
       (response ← axios (GET_papers api) (papers_request f);
        setPapers response)
       (fun error => console_error "Error fetching papers:" error))
    (setLoading false).

Definition generateCitation (paper : Paper) : string :=
  let year := getFullYear (submission_date paper) in
  template [ Sub (JStr (join ", " (authors paper))); Lit ". ("; Sub year; Lit "). ";
             Sub (JStr (title paper));
             Lit ". La Revista Nacional de las Ciencias para Estudiantes. DOI: ";
             Sub (doi paper) ].

End WithApi.

(** The three filter inputs, by their [name]. *)
Inductive filter_name : Type :=
  | category_filter
  | author_filter
  | institution_filter.

(** [handleFilterChange]: [setFilters(prev => ({...prev, [name]: value}))]. *)
Definition handleFilterChange (name : filter_name) (value : string) : M State unit :=
  set_state (fun s =>
    {| papers := papers s; loading := loading s;
       filters := match name with
                  | category_filter =>
                      mk_filters value (f_author (filters s)) (f_institution (filters s))
                  | author_filter =>
                      mk_filters (f_category (filters s)) value (f_institution (filters s))
                  | institution_filter =>
                      mk_filters (f_category (filters s)) (f_author (filters s)) value
                  end |}).

Definition filter_key (name : filter_name) : string :=
  match name with
  | category_filter => "category"
  | author_filter => "author"
  | institution_filter => "institution"
  end.

Definition filter_value (name : filter_name) (f : Filters) : string :=
  match name with
  | category_filter => f_category f
  | author_filter => f_author f
  | institution_filter => f_institution f
  end.

Section WithApiEffect.
Context (api : Api).

(** Typing into a filter input: the handler sets the filter, the component
    renders again and its effect on [filters] fetches with the new value. *)
Definition type_filter (name : filter_name) (value : string) : M State unit :=
  handleFilterChange name value;;
  ((fun e => fetchPapers api (filters (state e)) e) : M State unit).

End WithApiEffect.

End Papers.

(** ** AdminDashboard: the admin console *)

Module AdminDashboard.

Record State : Type := mk_state {
  papers : list Paper;
  applications : list Application;
  loading : bool
}.

Definition initial : State :=
  {| papers := []; applications := []; loading := true |}.

Definition setPapers (l : list Paper) : M State unit :=
  set_state (fun s => {| papers := l; applications := applications s; loading := loading s |}).

Definition setApplications (l : list Application) : M State unit :=
  set_state (fun s => {| papers := papers s; applications := l; loading := loading s |}).

Definition setLoading (b : bool) : M State unit :=
  set_state (fun s => {| papers := papers s; applications := applications s; loading := b |}).

(** The guard of the mount effect:
    [user && (user.role === 'admin' || user.role === 'super_admin')].
    [user.role] is evaluated on a truthy [user] only, where a property read
    cannot throw. *)
Definition effect_guard (user : jsval) : bool :=
  truthy user
  && (is_string (get_opt user "role") "admin"
      || is_string (get_opt user "role") "super_admin").

(** The guard of the render:
    [!user || (user.role !== 'admin' && user.role !== 'super_admin')]. *)
Definition redirects (user : jsval) : bool :=
  negb (truthy user)
  || (negb (is_string (get_opt user "role") "admin")
      && negb (is_string (get_opt user "role") "super_admin")).

(** What the component returns. *)
Inductive view : Type :=
  | Navigate (to : string)
  | Cargando
  | Panel (paper_cards : list Paper) (application_cards : list Application).

Definition render (user : jsval) (s : State) : view :=
  if redirects user then Navigate "/login"
  else if loading s then Cargando
  else Panel (papers s) (applications s).

(** The two buttons of a paper card. *)
Inductive decision : Type :=
  | Aprobar
  | Rechazar.

Definition action_of (d : decision) : string :=
  match d with
  | Aprobar => "approved"
  | Rechazar => "rejected"
  end.

(** The value of [document.querySelector(`#comment-${paperId}`)] on the page
    the component rendered, [None] when no element matches: the paper cards
    of the panel carry the only elements with such an id, one [textarea] per
    card.  Paper ids are taken to be plain identifiers ([plain_identifier]
    below), for which the selector names exactly the element with that id;
    for other ids the selector can match nothing or another element, and
    they are outside this model.  The text of a card is looked up by the id
    of its paper. *)
Definition comment_field (b : Browser) (v : view) (paperId : string) : option string :=
  match v with
  | Panel paper_cards _ =>
      if bool_decide (paperId ∈ map id paper_cards)
      then Some (default "" (comments b !! paperId))
      else None
  | _ => None
  end.

(** The characters of which [#comment-] followed by them is the id selector
    of that very id: letters, digits, [-] and [_]. *)
Definition plain_char (c : Ascii.ascii) : bool :=
  let n := Ascii.nat_of_ascii c in
  ((48 <=? n) && (n <=? 57) || (65 <=? n) && (n <=? 90)
   || (97 <=? n) && (n <=? 122) || (n =? 45) || (n =? 95))%nat.

Fixpoint plain_identifier (s : string) : bool :=
  match s with
  | EmptyString => true
  | String c rest => plain_char c && plain_identifier rest
  end.

Definition bearer (token : option string) : option string :=
  Some ("Bearer " +:+ default "null" token).

Definition pending_request (token : option string) : Request :=
  {| method := "GET"; url := API +:+ "/papers"; params := [("status", "pending")];
     authorization := bearer token; body := [] |}.

Definition applications_request (token : option string) : Request :=
  {| method := "GET"; url := API +:+ "/admin/applications"; params := [];
     authorization := bearer token; body := [] |}.

Definition review_request (token : option string) (paperId action comment : string) : Request :=
  {| method := "POST"; url := API +:+ "/review/" +:+ paperId; params := [];
     authorization := bearer token;
     body := [("action", FText action); ("comment", FText comment)] |}.

Section WithApi.
Context (api : Api).

Definition fetchPendingPapers : M State unit :=
  try_catch
    (token ← getItem "token";
     response ← axios (GET_papers api) (pending_request token);
     setPapers response)
    (fun error => console_error "Error fetching papers:" error).

Definition fetchApplications : M State unit :=
  try_finally
    (try_catch
       (token ← getItem "token";
        response ← axios (GET_admin_applications api) (applications_request token);
        setApplications response)
       (fun error => console_error "Error fetching applications:" error))
    (setLoading false).

(** The mount effect.  The two fetches are started one after the other and
    not awaited; they are run here in the order in which they are started. *)
Definition effect (user : jsval) : M State unit :=
  if effect_guard user then fetchPendingPapers;; fetchApplications
  else mret tt.

(** [handleReview], with the [papers] of the render it was created in;
    [user] is the identity the page is rendered for.  The comment is read off
    the page as it stands, before the [try]. *)
Definition handleReview (user : jsval) (papers : list Paper)
    (paperId action : string) : M State unit :=
  comment ← (fun e =>
     match comment_field (browser e) (render user (state e)) paperId with
     | Some text => (Returned text, e)
     | None => (Thrown (TypeError "Cannot read properties of null (reading 'value')"), e)
     end);
  try_catch
    (token ← getItem "token";
     axios (POST_review api) (review_request token paperId action comment);;
     setPapers (filter (fun p => id p ≠ paperId) papers))
    (fun error => console_error "Error reviewing paper:" error).

(** What pressing a review button in the console leads to. *)
Inductive press_outcome : Type :=
  | Redirected (to : string)
  | NoButton
  | Handled (r : js_result unit).

(** Pressing "Aprobar" or "Rechazar" on the card of [paperId]: the buttons
    exist only in the panel, one pair per pending paper, and call
    [handleReview(paper.id, 'approved' | 'rejected')].  This is the only
    caller of [handleReview]. *)
Definition press_review (user : jsval) (paperId : string) (d : decision)
    : Env State -> press_outcome * Env State :=
  fun e =>
    match render user (state e) with
    | Navigate to => (Redirected to, e)
    | Cargando => (NoButton, e)
    | Panel paper_cards _ =>
        if bool_decide (paperId ∈ map id paper_cards)
        then let '(r, e') := handleReview user paper_cards paperId (action_of d) e in
             (Handled r, e')
        else (NoButton, e)
    end.

End WithApi.

End AdminDashboard.

(** ** The role checks of the client *)

Module Access.

(** The places where the source compares [user.role]: the header link to
    [/admin]; the mount effect of the console, which lists the pending
    manuscripts and the reviewer applications; the render of the console,
    which holds the review buttons and the application cards. *)
Inductive check : Type :=
  | HeaderLink
  | MountEffect
  | ConsoleRender.

Definition allows (c : check) (user : jsval) : bool :=
  match c with
  | HeaderLink => Header.shows_admin_link user
  | MountEffect => AdminDashboard.effect_guard user
  | ConsoleRender => negb (AdminDashboard.redirects user)
  end.

(** [user.role], [undefined] for an anonymous visitor. *)
Definition role_of (user : jsval) : jsval := get_opt user "role".

Definition is_admin_role (r : jsval) : Prop :=
  r = JStr "admin" \/ r = JStr "super_admin".

End Access.

(** ** The submission workflow of the collaborator *)

(** Modelled from the spec: the server that answers [POST /submit-paper] and
    [POST /review/{id}] and keeps the manuscripts.  Its sources are not part
    of [frontend/src/App.js]; this module follows sections 3, 4.2 and 4.3 of
    the specification. *)
Module Workflow.

Inductive status : Type :=
  | Pending
  | Approved
  | Rejected.

Inductive role : Type :=
  | student
  | admin
  | super_admin.

Record Identity : Type := mk_identity {
  identity_id : nat;
  identity_name : string;
  identity_email : string;
  identity_role : role
}.

Inductive action : Type :=
  | viewAdminConsole
  | listPendingManuscripts
  | listReviewerApplications
  | decideManuscript
  | decideApplication
  | submitManuscript
  | applyAsReviewer
  | browsePublished.

Inductive verdict : Type :=
  | approve
  | reject.

Inductive error : Type :=
  | ValidationError
  | UnsupportedFileType
  | AuthorizationError
  | InvalidStateTransition
  (** the specification names no failure for an id that was never assigned *)
  | UnknownManuscript.

(** The fields of a submission. *)
Record Submission : Type := mk_submission {
  s_title : string;
  s_authors : list string;
  s_institution : string;
  s_email : string;
  s_category : string;
  s_abstract : string;
  s_keywords : list string;
  s_word_count : Z;
  s_file : string
}.

Record Manuscript : Type := mk_manuscript {
  m_fields : Submission;
  m_status : status;
  m_doi : option string
}.

Record Store : Type := mk_store {
  manuscripts : gmap nat Manuscript;
  next_id : nat
}.

Definition empty : Store := {| manuscripts := ∅; next_id := 0 |}.

(** Modelled from the spec: the access policy of section 4.2, whose rule
    table the client spreads over its call sites. *)
Definition canAccess (who : option Identity) (a : action) : bool :=
  match a with
  | viewAdminConsole | listPendingManuscripts | listReviewerApplications
  | decideManuscript | decideApplication =>
      match who with
      | Some i => match identity_role i with
                  | admin | super_admin => true
                  | student => false
                  end
      | None => false
      end
  | submitManuscript | applyAsReviewer | browsePublished => true
  end.

Section WithCollaborator.
(** The accepted file extensions, and the identifier minted on approval. *)
Context (accepted_file : string -> bool).
Context (mint_doi : nat -> Submission -> string).

Definition present (s : string) : bool := negb (String.eqb s "").

Definition fields_present (f : Submission) : bool :=
  present (s_title f) && negb (bool_decide (s_authors f = []))
  && present (s_institution f) && present (s_email f) && present (s_category f)
  && present (s_abstract f) && negb (bool_decide (s_keywords f = []))
  && present (s_file f).

(** Modelled from the spec: the transition [submit] of section 4.3, which
    the server behind [POST /submit-paper] implements. *)
Definition submit (f : Submission) (st : Store) : error + (nat * Store) :=
  if negb (fields_present f) then inl ValidationError
  else if negb ((2000 <=? s_word_count f)%Z && (s_word_count f <=? 8000)%Z) then inl ValidationError
  else if negb (accepted_file (s_file f)) then inl UnsupportedFileType
  else inr (next_id st,
            {| manuscripts := <[next_id st := mk_manuscript f Pending None]> (manuscripts st);
               next_id := S (next_id st) |}).

(** Modelled from the spec: the transition [decide] of section 4.3, which
    the server behind [POST /review/{paperId}] implements.  The comment is
    attached to the decision and not kept. *)
Definition decide (who : option Identity) (paperId : nat) (v : verdict)
    (comment : string) (st : Store) : error + Store :=
  if negb (canAccess who decideManuscript) then inl AuthorizationError
  else match manuscripts st !! paperId with
       | None => inl UnknownManuscript
       | Some m =>
           match m_status m with
           | Pending =>
               let m' := match v with
                         | approve => mk_manuscript (m_fields m) Approved
                                        (Some (mint_doi paperId (m_fields m)))
                         | reject => mk_manuscript (m_fields m) Rejected None
                         end in
               inr {| manuscripts := <[paperId := m']> (manuscripts st);
                      next_id := next_id st |}
           | Approved | Rejected => inl InvalidStateTransition
           end
       end.

(** One successful operation of the workflow. *)
Inductive step : Store -> Store -> Prop :=
  | step_submit f st paperId st' :
      submit f st = inr (paperId, st') -> step st st'
  | step_decide who paperId v comment st st' :
      decide who paperId v comment st = inr st' -> step st st'.

(** The stores the workflow can be in. *)
Inductive reachable : Store -> Prop :=
  | reachable_empty : reachable empty
  | reachable_step st st' : reachable st -> step st st' -> reachable st'.

Definition doi_iff_approved (m : Manuscript) : Prop :=
  m_status m = Approved <-> m_doi m <> None.

(** Ids are handed out in order: every record sits below [next_id]. *)
Definition ids_below_next (st : Store) : Prop :=
  forall i m, manuscripts st !! i = Some m -> (i < next_id st)%nat.

End WithCollaborator.

End Workflow.

(** ** Concrete data on which the statements below are exercised *)

Module Demo.

Definition no_response {A} (err : string) : list Request -> Request -> js_result A :=
  fun _ _ => Thrown {| err_name := "AxiosError"; err_message := err; err_response := None |}.

Definition network_error : js_error :=
  {| err_name := "AxiosError"; err_message := "Network Error"; err_response := None |}.

Definition unauthorized : js_error :=
  {| err_name := "AxiosError";
     err_message := "Request failed with status code 401";
     err_response := Some (401%nat, JObj [("detail", JStr "Incorrect email or password")]) |}.

Definition token_body : jsval :=
  JObj [("access_token", JStr "tok-1"); ("token_type", JStr "bearer")].

Definition ana : jsval :=
  JObj [("id", JNum 7); ("name", JStr "Ana"); ("email", JStr "ana@uc.cl");
        ("role", JStr "student")].

Definition marta : jsval :=
  JObj [("id", JNum 1); ("name", JStr "Marta"); ("email", JStr "marta@uc.cl");
        ("role", JStr "admin")].

Definition paper1 : Paper :=
  {| id := "p1"; title := "Mareas"; authors := ["Ana Soto"; "Luis Paz"];
     institution := "Liceo 1"; category := "Física"; abstract := "Resumen";
     keywords := ["mar"]; word_count := 3000; file_url := "/files/p1.docx";
     submission_date := "2024-05-17T10:00:00"; doi := JStr "10.1234/rnce.1" |}.

Definition paper2 : Paper :=
  {| id := "p2"; title := "Suelos"; authors := ["Eva Rojas"];
     institution := "Liceo 2"; category := "Geología"; abstract := "Resumen";
     keywords := ["suelo"]; word_count := 2500; file_url := "/files/p2.docx";
     submission_date := "2024-06-01T09:30:00"; doi := JNull |}.

(** A collaborator that knows Ana and Marta, lists nothing and acknowledges
    every review. *)
Definition api_ok : Api :=
  {| POST_token := fun _ r =>
       if bool_decide (body r = [("username", FText "ana@uc.cl"); ("password", FText "secreto")])
       then Returned token_body else Thrown unauthorized;
     GET_current_user := fun _ r =>
       if bool_decide (authorization r = Some "Bearer tok-1")
       then Returned ana else Thrown unauthorized;
     POST_submit_paper := fun _ _ => Returned (JObj [("doi", JStr "10.1234/rnce.9")]);
     GET_papers := fun _ _ => Returned [];
     GET_admin_applications := fun _ _ => Returned [];
     POST_review := fun _ _ => Returned (JObj [("message", JStr "ok")]) |}.

(** A collaborator that cannot be reached. *)
Definition api_down : Api :=
  {| POST_token := fun _ _ => Thrown network_error;
     GET_current_user := fun _ _ => Thrown network_error;
     POST_submit_paper := fun _ _ => Thrown network_error;
     GET_papers := fun _ _ => Thrown network_error;
     GET_admin_applications := fun _ _ => Thrown network_error;
     POST_review := fun _ _ => Thrown network_error |}.

Definition fresh_browser : Browser :=
  {| localStorage := ∅; requests := []; console := []; timers := []; comments := ∅ |}.

Definition anonymous : Env AuthProvider.State :=
  mk_env fresh_browser {| AuthProvider.user := JNull; AuthProvider.loading := false |}.

(** The console of an admin with two pending papers, loaded. *)
Definition console_env : Env AdminDashboard.State :=
  mk_env
    {| localStorage := {["token" := "tok-9"]}; requests := []; console := [];
       timers := []; comments := {["p1" := "Buen trabajo"]} |}
    {| AdminDashboard.papers := [paper1; paper2];
       AdminDashboard.applications := [];
       AdminDashboard.loading := false |}.

Definition catalog_env : Env Papers.State :=
  mk_env fresh_browser Papers.initial.

(** A browser that reads the numerals used below. *)
Definition valueAsNumber (s : string) : option Q :=
  if String.eqb s "1500" then Some 1500%Q
  else if String.eqb s "3000" then Some 3000%Q
  else if String.eqb s "9000" then Some 9000%Q
  else None.

Definition parseInt (s : string) : jsval :=
  if String.eqb s "1500" then JNum 1500
  else if String.eqb s "3000" then JNum 3000
  else if String.eqb s "9000" then JNum 9000
  else JNaN.

(** The same browser on the numeral [3e3], a valid floating-point number:
    the number control reads it as 3000, [parseInt] stops at the [e] and
    gives 3. *)
Definition valueAsNumber_exponent (s : string) : option Q :=
  if String.eqb s "3e3" then Some 3000%Q else valueAsNumber s.

Definition parseInt_exponent (s : string) : jsval :=
  if String.eqb s "3e3" then JNum 3 else parseInt s.

Definition valid_email (s : string) : bool := String.eqb s "ana@uc.cl".

Definition form (words : string) : SubmitPaper.FormData :=
  {| SubmitPaper.title := "Mareas"; SubmitPaper.authors := "Ana Soto, Luis Paz";
     SubmitPaper.institution := "Liceo 1"; SubmitPaper.email := "ana@uc.cl";
     SubmitPaper.category := "Física"; SubmitPaper.abstract := "Resumen";
     SubmitPaper.keywords := "mar"; SubmitPaper.word_count := words;
     SubmitPaper.file := Some "paper.docx" |}.

Definition submit_env (words : string) : Env SubmitPaper.State :=
  mk_env fresh_browser
    {| SubmitPaper.formData := form words; SubmitPaper.loading := false;
       SubmitPaper.message := "" |}.

(** A provider that has just mounted and finds [token] in the storage. *)
Definition returning (token : string) : Env AuthProvider.State :=
  mk_env
    {| localStorage := {["token" := token]}; requests := []; console := [];
       timers := []; comments := ∅ |}
    AuthProvider.initial.

(** A collaborator whose token answer carries no [access_token]. *)
Definition api_bare : Api :=
  {| POST_token := fun _ _ => Returned (JObj [("token_type", JStr "bearer")]);
     GET_current_user := GET_current_user api_ok;
     POST_submit_paper := POST_submit_paper api_ok;
     GET_papers := GET_papers api_ok;
     GET_admin_applications := GET_admin_applications api_ok;
     POST_review := POST_review api_ok |}.

(** A collaborator that lists the two sample papers as pending. *)
Definition api_pending : Api :=
  {| POST_token := POST_token api_ok;
     GET_current_user := GET_current_user api_ok;
     POST_submit_paper := POST_submit_paper api_ok;
     GET_papers := fun _ _ => Returned [paper1; paper2];
     GET_admin_applications := GET_admin_applications api_ok;
     POST_review := POST_review api_ok |}.

(** The console of an admin as it mounts. *)
Definition mounting_console : Env AdminDashboard.State :=
  mk_env
    {| localStorage := {["token" := "tok-9"]}; requests := []; console := [];
       timers := []; comments := ∅ |}
    AdminDashboard.initial.

Definition acknowledge : list Request -> Request -> js_result jsval :=
  fun _ _ => Returned (JObj [("message", JStr "ok")]).

(** The sign-in page with the given credentials typed, no session yet. *)
Definition credentials (email password : string) : Login.FormData :=
  {| Login.email := email; Login.password := password; Login.name := "";
     Login.institution := ""; Login.study_area := "" |}.

Definition login_page : Env Login.Cells :=
  mk_env fresh_browser
    ({| AuthProvider.user := JNull; AuthProvider.loading := false |}, Login.initial).

(** An application whose motivation letter is a single word. *)
Definition short_application : ApplyAdmin.FormData :=
  {| ApplyAdmin.name := "Eva Rojas"; ApplyAdmin.email := "ana@uc.cl";
     ApplyAdmin.institution := "Liceo 2"; ApplyAdmin.cv := Some "cv.pdf";
     ApplyAdmin.motivation_letter := "Quiero";
     ApplyAdmin.specialization := "Geología"; ApplyAdmin.references := "L. Paz";
     ApplyAdmin.experience := "Ninguna"; ApplyAdmin.certificates := Some "cert.pdf" |}.

Definition apply_env : Env ApplyAdmin.State :=
  mk_env fresh_browser
    {| ApplyAdmin.formData := short_application; ApplyAdmin.loading := false;
       ApplyAdmin.message := "" |}.

(** A collaborator that issues tokens but cannot resolve identities. *)
Definition api_flaky : Api :=
  {| POST_token := POST_token api_ok;
     GET_current_user := fun _ _ => Thrown network_error;
     POST_submit_paper := POST_submit_paper api_ok;
     GET_papers := GET_papers api_ok;
     GET_admin_applications := GET_admin_applications api_ok;
     POST_review := POST_review api_ok |}.

Definition accepted_file (name : string) : bool :=
  String.eqb name "paper.doc" || String.eqb name "paper.docx".

Definition mint_doi (paperId : nat) (f : Workflow.Submission) : string :=
  "10.1234/rnce." +:+ pretty paperId.

Definition submission : Workflow.Submission :=
  {| Workflow.s_title := "X"; Workflow.s_authors := ["A"; "B"];
     Workflow.s_institution := "Liceo 1"; Workflow.s_email := "a@uc.cl";
     Workflow.s_category := "Física"; Workflow.s_abstract := "Resumen";
     Workflow.s_keywords := ["x"]; Workflow.s_word_count := 3000;
     Workflow.s_file := "paper.docx" |}.

Definition editor : Workflow.Identity :=
  {| Workflow.identity_id := 1; Workflow.identity_name := "Marta";
     Workflow.identity_email := "marta@uc.cl"; Workflow.identity_role := Workflow.admin |}.

(** The store after the sample submission. *)
Definition store1 : Workflow.Store :=
  {| Workflow.manuscripts :=
       <[0%nat := Workflow.mk_manuscript submission Workflow.Pending None]> ∅;
     Workflow.next_id := 1 |}.

End Demo.

(** * Properties *)

Create HintDb js_run.
#[export] Hint Unfold mbind mret M_bind M_ret try_catch try_finally eval
  set_state with_browser getItem setItem removeItem console_error
  setTimeout_navigate axios : js_run.

(** Runs the monadic glue of a component function. *)
Ltac js_run := autounfold with js_run; cbn.

Lemma get_prop_truthy v k :
  truthy v = true -> get_prop v k = Returned (get_opt v k).
Proof. destruct v; cbn; congruence. Qed.

(** ** Session *)

Section Session.
Import AuthProvider.
Context (api : Api).

(** C7.  A [login] whose credentials the identity store rejects fails with
    that rejection; nothing is persisted and the session is as it was before
    the call, so an empty session stays empty and no token appears. *)
Theorem login_rejected_changes_nothing (email password : string)
    (e : Env State) (err : js_error) :
  POST_token api (requests (browser e)) (token_request email password) = Thrown err ->
  let '(r, e') := login api email password e in
  r = Thrown err
  /\ state e' = state e
  /\ localStorage (browser e') = localStorage (browser e)
  /\ (user (state e) = JNull -> user (state e') = JNull)
  /\ (localStorage (browser e) !! "token" = None ->
      localStorage (browser e') !! "token" = None).
Proof.
  intros Hrej. unfold login. js_run. rewrite Hrej. cbn. tauto.
Qed.

(** C6 (amended).  When [POST /token] and [GET /current_user] both succeed,
    [login] persists the bearer token, sets the session identity to the body
    of [GET /current_user], and returns the body of the token response. *)
Theorem login_success (email password : string) (e : Env State)
    (data token identity : jsval) :
  POST_token api (requests (browser e)) (token_request email password) = Returned data ->
  get_prop data "access_token" = Returned token ->
  GET_current_user api (requests (browser e) ++ [token_request email password])
    (current_user_request token) = Returned identity ->
  let '(r, e') := login api email password e in
  r = Returned data
  /\ localStorage (browser e') = <["token" := ToString token]> (localStorage (browser e))
  /\ user (state e') = identity
  /\ loading (state e') = false
  /\ requests (browser e') =
     requests (browser e) ++ [token_request email password; current_user_request token].
Proof.
  intros Htoken Hfield Huser. unfold login, fetchCurrentUser. js_run.
  rewrite Htoken. cbn. rewrite Hfield. cbn. rewrite Huser. cbn.
  rewrite <- app_assoc. auto.
Qed.

(** When the token is issued but the identity cannot be fetched, [login]
    still completes normally: the token just stored is removed again and the
    session identity is left as it was. *)
Lemma login_identity_unresolved (email password : string) (e : Env State)
    (data token : jsval) (err : js_error) :
  POST_token api (requests (browser e)) (token_request email password) = Returned data ->
  get_prop data "access_token" = Returned token ->
  GET_current_user api (requests (browser e) ++ [token_request email password])
    (current_user_request token) = Thrown err ->
  let '(r, e') := login api email password e in
  r = Returned data
  /\ localStorage (browser e') !! "token" = None
  /\ user (state e') = user (state e)
  /\ loading (state e') = false.
Proof.
  intros Htoken Hfield Huser. unfold login, fetchCurrentUser. js_run.
  rewrite Htoken. cbn. rewrite Hfield. cbn. rewrite Huser. cbn.
  split; [done|]. split; [|done]. by rewrite lookup_delete_eq.
Qed.

(** [restore] without a stored token leaves the session empty, issues no
    request and does not throw. *)
Lemma restore_without_token (e : Env State) :
  localStorage (browser e) !! "token" = None ->
  restore api e = (Returned tt, mk_env (browser e) {| user := user (state e); loading := false |}).
Proof. intros Hnone. unfold restore. js_run. by rewrite Hnone. Qed.

End Session.

Lemma login_rejected_changes_nothing_witness :
  POST_token Demo.api_ok [] (AuthProvider.token_request "bad@x.com" "wrong")
  = Thrown Demo.unauthorized
  /\ let '(r, e') := AuthProvider.login Demo.api_ok "bad@x.com" "wrong" Demo.anonymous in
     r = Thrown Demo.unauthorized
     /\ state e' = state Demo.anonymous
     /\ localStorage (browser e') = localStorage (browser Demo.anonymous)
     /\ (AuthProvider.user (state Demo.anonymous) = JNull ->
         AuthProvider.user (state e') = JNull)
     /\ (localStorage (browser Demo.anonymous) !! "token" = None ->
         localStorage (browser e') !! "token" = None).
Proof.
  split; [reflexivity|].
  apply (login_rejected_changes_nothing Demo.api_ok "bad@x.com" "wrong"
           Demo.anonymous Demo.unauthorized).
  reflexivity.
Defined.

Lemma login_success_witness :
  let '(r, e') := AuthProvider.login Demo.api_ok "ana@uc.cl" "secreto" Demo.anonymous in
  r = Returned Demo.token_body
  /\ localStorage (browser e') = <["token" := "tok-1"]> ∅
  /\ AuthProvider.user (state e') = Demo.ana
  /\ AuthProvider.loading (state e') = false
  /\ requests (browser e') =
     [AuthProvider.token_request "ana@uc.cl" "secreto";
      AuthProvider.current_user_request (JStr "tok-1")].
Proof.
  apply (login_success Demo.api_ok "ana@uc.cl" "secreto" Demo.anonymous
           Demo.token_body (JStr "tok-1") Demo.ana); reflexivity.
Defined.

(** C6 (as stated) fails: on a successful [login] the caller receives the
    token response, which is not the identity the session now holds. *)
Lemma login_returns_token_body_not_identity :
  let '(r, e') := AuthProvider.login Demo.api_ok "ana@uc.cl" "secreto" Demo.anonymous in
  r = Returned Demo.token_body
  /\ AuthProvider.user (state e') = Demo.ana
  /\ r <> Returned (AuthProvider.user (state e')).
Proof.
  cbn. split; [reflexivity|]. split; [reflexivity|]. discriminate.
Qed.

(** ** Access *)

Lemma is_string_true v lit : is_string v lit = true <-> v = JStr lit.
Proof.
  destruct v; cbn; try (split; [discriminate | congruence]).
  rewrite String.eqb_eq. split; congruence.
Qed.

Lemma has_role_truthy user :
  Access.is_admin_role (Access.role_of user) -> truthy user = true.
Proof. unfold Access.is_admin_role, Access.role_of. destruct user; cbn; intros [?|?]; congruence. Qed.

Lemma admin_role_spec user :
  is_string (get_opt user "role") "admin" || is_string (get_opt user "role") "super_admin" = true
  <-> Access.is_admin_role (Access.role_of user).
Proof.
  unfold Access.is_admin_role, Access.role_of.
  rewrite orb_true_iff, !is_string_true. tauto.
Qed.

Lemma allows_iff_admin_role c user :
  Access.allows c user = true <-> Access.is_admin_role (Access.role_of user).
Proof.
  destruct c; cbn.
  - apply admin_role_spec.
  - unfold AdminDashboard.effect_guard. rewrite andb_true_iff, admin_role_spec.
    split; [tauto|]. intros H. split; [by apply has_role_truthy | done].
  - unfold AdminDashboard.redirects.
    rewrite negb_true_iff, orb_false_iff, negb_false_iff, <- negb_orb, negb_false_iff.
    rewrite admin_role_spec.
    split; [tauto|]. intros H. split; [by apply has_role_truthy | done].
Qed.

(** C8.  Every role check that stands before the admin actions allows an
    identity exactly when its role is [admin] or [super_admin]; an anonymous
    visitor is refused; and an identity with role [admin] gets the decision
    an identity with role [super_admin] gets, at every check. *)
Theorem admin_checks_allow_admin_roles :
  (forall c user, Access.allows c user = true <-> Access.is_admin_role (Access.role_of user))
  /\ (forall c, Access.allows c JNull = false)
  /\ (forall c u1 u2,
        Access.role_of u1 = JStr "admin" ->
        Access.role_of u2 = JStr "super_admin" ->
        Access.allows c u1 = Access.allows c u2).
Proof.
  split; [exact allows_iff_admin_role|]. split.
  - intros []; reflexivity.
  - intros c u1 u2 H1 H2.
    assert (A1 : Access.allows c u1 = true) by (apply allows_iff_admin_role; left; exact H1).
    assert (A2 : Access.allows c u2 = true) by (apply allows_iff_admin_role; right; exact H2).
    congruence.
Qed.

Lemma admin_checks_allow_admin_roles_witness :
  Access.allows Access.ConsoleRender Demo.marta = true
  /\ Access.allows Access.MountEffect Demo.ana = false
  /\ Access.allows Access.HeaderLink Demo.marta
     = Access.allows Access.HeaderLink (JObj [("role", JStr "super_admin")]).
Proof.
  destruct admin_checks_allow_admin_roles as (Hiff & _ & Hsame).
  split; [apply Hiff; left; reflexivity|].
  split; [reflexivity|].
  apply Hsame; reflexivity.
Defined.

(** ** Review *)

Lemma filter_other_ids_absent (l : list Paper) (paperId : string) :
  paperId ∉ map id l -> filter (fun q => id q ≠ paperId) l = l.
Proof.
  induction l as [|q l IH]; intros Hnot; [reflexivity|].
  change (map id (q :: l)) with (id q :: map id l) in Hnot.
  apply not_elem_of_cons in Hnot as [Hne Hnot].
  rewrite filter_cons, decide_True by congruence.
  by rewrite IH.
Qed.

Lemma filter_other_ids_split (l : list Paper) (paperId : string) :
  NoDup (map id l) -> paperId ∈ map id l ->
  exists l1 p l2,
    l = l1 ++ p :: l2 /\ id p = paperId
    /\ filter (fun q => id q ≠ paperId) l = l1 ++ l2.
Proof.
  induction l as [|q l IH]; intros Hnd Hin.
  - by apply elem_of_nil in Hin.
  - change (map id (q :: l)) with (id q :: map id l) in Hnd, Hin.
    apply NoDup_cons in Hnd as [Hq Hnd].
    rewrite filter_cons. destruct (decide (id q = paperId)) as [Heq|Hne].
    + exists [], q, l. split; [done|]. split; [done|].
      rewrite decide_False by (intros ?; contradiction).
      apply filter_other_ids_absent. by rewrite <- Heq.
    + apply elem_of_cons in Hin as [Hin|Hin]; [congruence|].
      destruct (IH Hnd Hin) as (l1 & p & l2 & -> & Hp & Hf).
      exists (q :: l1), p, l2. rewrite decide_True by done.
      cbn. by rewrite Hf.
Qed.

Section Review.
Import AdminDashboard.
Context (api : Api).

(** What [press_review] does on a rendered panel that has a card for [paperId]. *)
Lemma press_review_on_panel (user : jsval) (paperId : string) (d : decision) (e : Env State) :
  redirects user = false ->
  loading (state e) = false ->
  paperId ∈ map id (papers (state e)) ->
  press_review api user paperId d e =
    let comment := default "" (comments (browser e) !! paperId) in
    let token := localStorage (browser e) !! "token" in
    let r := review_request token paperId (action_of d) comment in
    match POST_review api (requests (browser e)) r with
    | Returned _ =>
        (Handled (Returned tt),
         mk_env (log_request r (browser e))
           {| papers := filter (fun p => id p ≠ paperId) (papers (state e));
              applications := applications (state e);
              loading := loading (state e) |})
    | Thrown err =>
        (Handled (Returned tt),
         mk_env (let b := log_request r (browser e) in
                 mk_browser (localStorage b) (requests b)
                   (console b ++ [("Error reviewing paper:", err)]) (timers b) (comments b))
           (state e))
    end.
Proof.
  intros Hadmin Hloaded Hin.
  unfold press_review, handleReview, comment_field, render, setPapers.
  rewrite Hadmin, Hloaded, !bool_decide_eq_true_2 by done.
  js_run. rewrite ?Hadmin, ?Hloaded. cbn.
  rewrite bool_decide_eq_true_2 by done. cbn.
  destruct (POST_review api _ _); cbn; rewrite ?Hloaded; reflexivity.
Qed.

(** A press that is handled while the list is still the one its render
    showed: after the acknowledgement the pending list is that list without
    the entries whose id is [paperId]: none remains, every other entry stays,
    in the same order, and with distinct ids exactly one entry has gone.
    Applications are untouched. *)
Theorem decide_removes_paper_from_pending (user : jsval) (paperId : string)
    (d : decision) (e : Env State) (ack : jsval) :
  redirects user = false ->
  loading (state e) = false ->
  paperId ∈ map id (papers (state e)) ->
  POST_review api (requests (browser e))
    (review_request (localStorage (browser e) !! "token") paperId (action_of d)
       (default "" (comments (browser e) !! paperId))) = Returned ack ->
  let '(r, e') := press_review api user paperId d e in
  r = Handled (Returned tt)
  /\ papers (state e') = filter (fun p => id p ≠ paperId) (papers (state e))
  /\ (paperId ∉ map id (papers (state e')))
  /\ (forall p, p ∈ papers (state e') <-> p ∈ papers (state e) /\ id p ≠ paperId)
  /\ (papers (state e') `sublist_of` papers (state e))
  /\ (NoDup (map id (papers (state e))) ->
      exists l1 p l2,
        papers (state e) = l1 ++ p :: l2 /\ id p = paperId
        /\ papers (state e') = l1 ++ l2)
  /\ applications (state e') = applications (state e).
Proof.
  intros Hadmin Hloaded Hin Hack.
  rewrite press_review_on_panel by done. cbn. rewrite Hack. cbn.
  split; [done|]. split; [done|]. split.
  { intros Hstill. clear -Hstill.
    induction (papers (state e)) as [|q l IH]; [by apply elem_of_nil in Hstill|].
    rewrite filter_cons in Hstill. destruct (decide (id q ≠ paperId)) as [Hne|Heq].
    - change (paperId ∈ id q :: map id (filter (fun p => id p ≠ paperId) l)) in Hstill.
      apply elem_of_cons in Hstill as [?|?]; [congruence | auto].
    - auto. }
  split; [intros p; rewrite list_elem_of_filter; tauto|].
  split; [apply sublist_filter|].
  split; [intros Hnd; by apply filter_other_ids_split | done].
Qed.

(** Off the panel there is no comment field: [handleReview] throws while
    reading it, before its [try] and before any request. *)
Lemma handleReview_off_panel (user : jsval) (papers : list Paper)
    (paperId action : string) (e : Env State) :
  comment_field (browser e) (render user (state e)) paperId = None ->
  handleReview api user papers paperId action e =
    (Thrown (TypeError "Cannot read properties of null (reading 'value')"), e).
Proof. intros Hnone. unfold handleReview. js_run. by rewrite Hnone. Qed.

(** C2 (amended).  For a caller who is anonymous or whose role is neither
    [admin] nor [super_admin], the console renders a redirect to [/login]:
    an attempt to decide meets no button, raises no error and issues no
    request, and the mount effect issues no request either. *)
Theorem decide_without_admin_role_redirects (user : jsval) (paperId : string)
    (d : decision) (e : Env State) :
  user = JNull \/ ~ Access.is_admin_role (Access.role_of user) ->
  press_review api user paperId d e = (Redirected "/login", e)
  /\ effect api user e = (Returned tt, e).
Proof.
  intros Hwho.
  assert (Hno : ~ Access.is_admin_role (Access.role_of user)).
  { destruct Hwho as [->|H]; [|exact H]. intros [H|H]; discriminate H. }
  assert (Hred : redirects user = true).
  { destruct (redirects user) eqn:E; [done|]. exfalso. apply Hno.
    apply (allows_iff_admin_role Access.ConsoleRender). cbn. by rewrite E. }
  assert (Hguard : effect_guard user = false).
  { destruct (effect_guard user) eqn:E; [|done]. exfalso. apply Hno.
    by apply (allows_iff_admin_role Access.MountEffect). }
  unfold press_review, effect, render. by rewrite Hred, Hguard.
Qed.

(** A failure of [POST /review/{id}] is caught and written to the console
    with its error; the call completes normally and the component state is
    as before. *)
Lemma decide_failure_is_logged (user : jsval) (paperId : string)
    (d : decision) (e : Env State) (err : js_error) :
  redirects user = false ->
  loading (state e) = false ->
  paperId ∈ map id (papers (state e)) ->
  POST_review api (requests (browser e))
    (review_request (localStorage (browser e) !! "token") paperId (action_of d)
       (default "" (comments (browser e) !! paperId))) = Thrown err ->
  let '(r, e') := press_review api user paperId d e in
  r = Handled (Returned tt)
  /\ state e' = state e
  /\ console (browser e') = console (browser e) ++ [("Error reviewing paper:", err)].
Proof.
  intros Hadmin Hloaded Hin Hfail.
  rewrite press_review_on_panel by done. cbn. rewrite Hfail. cbn. done.
Qed.

End Review.

Lemma decide_removes_paper_from_pending_witness :
  let '(r, e') := AdminDashboard.press_review Demo.api_ok Demo.marta "p1"
                    AdminDashboard.Aprobar Demo.console_env in
  r = AdminDashboard.Handled (Returned tt)
  /\ AdminDashboard.papers (state e') = [Demo.paper2]
  /\ requests (browser e') =
     [AdminDashboard.review_request (Some "tok-9") "p1" "approved" "Buen trabajo"].
Proof.
  pose proof (decide_removes_paper_from_pending Demo.api_ok Demo.marta "p1"
                AdminDashboard.Aprobar Demo.console_env
                (JObj [("message", JStr "ok")])) as H.
  cbn in H. cbn.
  destruct H as (Hr & Hp & _); [reflexivity | reflexivity | | reflexivity |].
  - apply list_elem_of_here.
  - split; [exact Hr|]. split; reflexivity.
Defined.

Lemma decide_without_admin_role_redirects_witness :
  AdminDashboard.press_review Demo.api_ok Demo.ana "p1" AdminDashboard.Rechazar
    Demo.console_env = (AdminDashboard.Redirected "/login", Demo.console_env)
  /\ AdminDashboard.effect Demo.api_ok Demo.ana Demo.console_env
     = (Returned tt, Demo.console_env).
Proof.
  apply (decide_without_admin_role_redirects Demo.api_ok Demo.ana "p1"
           AdminDashboard.Rechazar Demo.console_env).
  right. intros [H|H]; discriminate H.
Defined.

(** C2 (as stated) fails: an anonymous caller who attempts to decide meets a
    redirect to [/login]; no error of any kind is raised. *)
Lemma anonymous_decide_is_redirected_not_failed :
  AdminDashboard.press_review Demo.api_ok JNull "p1" AdminDashboard.Aprobar
    Demo.console_env = (AdminDashboard.Redirected "/login", Demo.console_env)
  /\ ~ exists err e',
        AdminDashboard.press_review Demo.api_ok JNull "p1" AdminDashboard.Aprobar
          Demo.console_env = (AdminDashboard.Handled (Thrown err), e').
Proof.
  split; [reflexivity|]. intros (err & e' & H). discriminate H.
Qed.

(** ** Catalogue *)

Lemma append_empty_r (s : string) : s +:+ "" = s.
Proof. induction s as [|c s IH]; [reflexivity|]. cbv [String.append] in *. by f_equal. Qed.

Section Catalogue.
Import Papers.
Context (api : Api).
Context (getFullYear : string -> jsval).

(** C9.  The citation of a manuscript is its authors joined by [", "], then
    [". ("], the year of its submission date, ["). "], its title, [". "], the
    name of the journal, [". DOI: "] and its doi; it depends on nothing but
    the manuscript, so equal manuscripts get equal citations. *)
Theorem generateCitation_format (paper : Paper) :
  authors paper <> [] ->
  generateCitation getFullYear paper =
    join ", " (authors paper) +:+ ". (" +:+ ToString (getFullYear (submission_date paper))
    +:+ "). " +:+ title paper +:+ ". "
    +:+ "La Revista Nacional de las Ciencias para Estudiantes" +:+ ". DOI: "
    +:+ ToString (doi paper)
  /\ (forall paper', paper' = paper ->
      generateCitation getFullYear paper' = generateCitation getFullYear paper).
Proof.
  intros _. split; [|by intros ? ->].
  unfold generateCitation, template. cbn [foldr ToString].
  by rewrite append_empty_r.
Qed.

(** A failure of [GET /papers] is caught and written to the console with its
    error; the call completes normally, the list is as before and the
    loading flag is cleared. *)
Lemma fetchPapers_failure_is_logged (f : Filters) (e : Env State) (err : js_error) :
  GET_papers api (requests (browser e)) (papers_request f) = Thrown err ->
  let '(r, e') := fetchPapers api f e in
  r = Returned tt
  /\ papers (state e') = papers (state e)
  /\ filters (state e') = filters (state e)
  /\ loading (state e') = false
  /\ console (browser e') = console (browser e) ++ [("Error fetching papers:", err)].
Proof.
  intros Hfail. unfold fetchPapers, setPapers, setLoading. js_run.
  rewrite Hfail. cbn. done.
Qed.

End Catalogue.

Lemma generateCitation_format_witness :
  Papers.generateCitation (fun _ => JNum 2024) Demo.paper1 =
    "Ana Soto, Luis Paz. (2024). Mareas. La Revista Nacional de las Ciencias para Estudiantes. DOI: 10.1234/rnce.1".
Proof.
  destruct (generateCitation_format (fun _ => JNum 2024) Demo.paper1) as [H _];
    [discriminate|].
  rewrite H. reflexivity.
Defined.

(** C5 (amended).  In [list] ([fetchPapers]) and in [decide] ([handleReview]
    behind its button) a failure of the request is not raised to the caller:
    it is caught and written to the console under a fixed label together
    with the error, the call completes normally, and the manuscripts the
    component holds are as before ([list] also clears its loading flag). *)
Theorem list_and_decide_failures_are_logged (api : Api) (err : js_error) :
  (forall (f : Papers.Filters) (e : Env Papers.State),
      GET_papers api (requests (browser e)) (Papers.papers_request f) = Thrown err ->
      let '(r, e') := Papers.fetchPapers api f e in
      r = Returned tt
      /\ Papers.papers (state e') = Papers.papers (state e)
      /\ Papers.filters (state e') = Papers.filters (state e)
      /\ Papers.loading (state e') = false
      /\ console (browser e') = console (browser e) ++ [("Error fetching papers:", err)])
  /\ (forall (user : jsval) (paperId : string) (d : AdminDashboard.decision)
        (e : Env AdminDashboard.State),
      AdminDashboard.redirects user = false ->
      AdminDashboard.loading (state e) = false ->
      paperId ∈ map id (AdminDashboard.papers (state e)) ->
      POST_review api (requests (browser e))
        (AdminDashboard.review_request (localStorage (browser e) !! "token") paperId
           (AdminDashboard.action_of d)
           (default "" (comments (browser e) !! paperId))) = Thrown err ->
      let '(r, e') := AdminDashboard.press_review api user paperId d e in
      r = AdminDashboard.Handled (Returned tt)
      /\ state e' = state e
      /\ console (browser e') = console (browser e) ++ [("Error reviewing paper:", err)]).
Proof.
  split.
  - intros f e. apply fetchPapers_failure_is_logged.
  - intros user paperId d e. apply decide_failure_is_logged.
Qed.

Lemma list_and_decide_failures_are_logged_witness :
  (let '(r, e') := Papers.fetchPapers Demo.api_down (Papers.mk_filters "Física" "" "")
                     Demo.catalog_env in
   r = Returned tt
   /\ Papers.papers (state e') = []
   /\ console (browser e') = [("Error fetching papers:", Demo.network_error)])
  /\ (let '(r, e') := AdminDashboard.press_review Demo.api_down Demo.marta "p2"
                        AdminDashboard.Rechazar Demo.console_env in
      r = AdminDashboard.Handled (Returned tt)
      /\ state e' = state Demo.console_env
      /\ console (browser e') = [("Error reviewing paper:", Demo.network_error)]).
Proof.
  destruct (list_and_decide_failures_are_logged Demo.api_down Demo.network_error)
    as [Hlist Hdecide].
  split.
  - pose proof (Hlist (Papers.mk_filters "Física" "" "") Demo.catalog_env eq_refl) as H.
    destruct (Papers.fetchPapers Demo.api_down _ Demo.catalog_env) as [r e'].
    cbn in H. tauto.
  - assert (Hin : "p2" ∈ map id (AdminDashboard.papers (state Demo.console_env))).
    { cbn. apply list_elem_of_further, list_elem_of_here. }
    pose proof (Hdecide Demo.marta "p2" AdminDashboard.Rechazar Demo.console_env
                  eq_refl eq_refl Hin eq_refl) as H.
    destruct (AdminDashboard.press_review Demo.api_down _ _ _ Demo.console_env) as [r e'].
    cbn in H. exact H.
Defined.

(** C5 (as stated) fails: with the collaborator unreachable, [list] and
    [decide] complete normally and raise nothing; the catalogue then shows
    what it shows for an empty result, and the console panel is unchanged. *)
Lemma unreachable_collaborator_is_not_reported :
  (let '(r, e') := Papers.fetchPapers Demo.api_down (Papers.mk_filters "" "" "")
                     Demo.catalog_env in
   let '(r_ok, e_ok) := Papers.fetchPapers Demo.api_ok (Papers.mk_filters "" "" "")
                          Demo.catalog_env in
   r = Returned tt /\ r = r_ok /\ state e' = state e_ok
   /\ Papers.render (state e') = Papers.NoSeEncontraron)
  /\ (let '(r, e') := AdminDashboard.press_review Demo.api_down Demo.marta "p1"
                        AdminDashboard.Aprobar Demo.console_env in
      r = AdminDashboard.Handled (Returned tt)
      /\ state e' = state Demo.console_env).
Proof.
  split; vm_compute; repeat split; reflexivity.
Qed.

(** ** Submission *)

Section Submission.
Import SubmitPaper.
Context (parseInt : string -> jsval).
Context (valueAsNumber : string -> option Q).
Context (valid_email : string -> bool).
Context (api : Api).

Lemma number_validity_out_of_range (name value : string) (q : Q) :
  valueAsNumber value = Some q ->
  (q < 2000 \/ 8000 < q)%Q ->
  (name, rangeUnderflow) ∈ number_validity valueAsNumber name value
  \/ (name, rangeOverflow) ∈ number_validity valueAsNumber name value.
Proof.
  intros Hq Hout. unfold number_validity. rewrite Hq.
  destruct Hout as [Hlow|Hhigh].
  - left. destruct (Qle_bool 2000 q) eqn:E.
    + apply Qle_bool_iff in E. by apply Qlt_not_le in Hlow.
    + apply list_elem_of_here.
  - right. destruct (Qle_bool q 8000) eqn:E.
    + apply Qle_bool_iff in E. by apply Qlt_not_le in Hhigh.
    + apply elem_of_app. right. apply list_elem_of_here.
Qed.

Lemma form_validity_word_count (fd : FormData) (flag : validity_flag) :
  ("word_count", flag) ∈ number_validity valueAsNumber "word_count" (word_count fd) ->
  ("word_count", flag) ∈ form_validity valueAsNumber valid_email fd.
Proof.
  intros H. unfold form_validity.
  do 7 (apply elem_of_app; right). apply elem_of_app. by left.
Qed.

(** When the number the word count control reads is below 2000 or above
    8000, pressing the submit button is rejected by the validation of the
    form, with a range flag on [word_count]: [handleSubmit] does not run,
    nothing changes and no request is issued. *)
Theorem press_submit_rejects_word_count_out_of_range (e : Env State) (q : Q) :
  valueAsNumber (word_count (formData (state e))) = Some q ->
  (q < 2000 \/ 8000 < q)%Q ->
  let '(o, e') := press_submit parseInt valueAsNumber valid_email api e in
  e' = e
  /\ requests (browser e') = requests (browser e)
  /\ (forall r, o <> Submitted r)
  /\ (loading (state e) = false ->
      exists problems,
        o = Invalid problems
        /\ (("word_count", rangeUnderflow) ∈ problems
            \/ ("word_count", rangeOverflow) ∈ problems)).
Proof.
  intros Hq Hout.
  pose proof (number_validity_out_of_range "word_count" _ q Hq Hout) as Hflag.
  assert (Hform : ("word_count", rangeUnderflow)
                    ∈ form_validity valueAsNumber valid_email (formData (state e))
                  \/ ("word_count", rangeOverflow)
                    ∈ form_validity valueAsNumber valid_email (formData (state e))).
  { destruct Hflag; [left|right]; by apply form_validity_word_count. }
  unfold press_submit. destruct (loading (state e)).
  - repeat split; [discriminate | discriminate].
  - destruct (form_validity valueAsNumber valid_email (formData (state e)))
      as [|problem problems] eqn:E.
    + destruct Hform as [H|H]; by apply elem_of_nil in H.
    + repeat split; [discriminate|]. intros _. eauto.
Qed.

End Submission.

(** A submission within the range goes out, and the page reports the doi the
    collaborator answered with. *)
Example press_submit_in_range :
  let '(o, e') := SubmitPaper.press_submit Demo.parseInt Demo.valueAsNumber
                    Demo.valid_email Demo.api_ok (Demo.submit_env "3000") in
  o = SubmitPaper.Submitted (Returned tt)
  /\ SubmitPaper.message (state e') = "Paper enviado exitosamente. DOI: 10.1234/rnce.9"
  /\ requests (browser e') = [SubmitPaper.submit_request Demo.parseInt (Demo.form "3000")]
  /\ timers (browser e') = [(3000%nat, "/papers")].
Proof. vm_compute. repeat split; reflexivity. Qed.

Lemma press_submit_rejects_word_count_out_of_range_witness :
  let '(o, e') := SubmitPaper.press_submit Demo.parseInt Demo.valueAsNumber
                    Demo.valid_email Demo.api_ok (Demo.submit_env "1500") in
  o = SubmitPaper.Invalid [("word_count", SubmitPaper.rangeUnderflow)]
  /\ requests (browser e') = [].
Proof.
  pose proof (press_submit_rejects_word_count_out_of_range Demo.parseInt
                Demo.valueAsNumber Demo.valid_email Demo.api_ok
                (Demo.submit_env "1500") 1500%Q eq_refl) as H.
  destruct (SubmitPaper.press_submit _ _ _ _ (Demo.submit_env "1500")) as [o e'] eqn:E.
  destruct H as (-> & _ & _ & _); [left; reflexivity|].
  vm_compute in E. injection E as <-. split; reflexivity.
Defined.

(** ** Workflow of the collaborator *)

Section WorkflowProperties.
Import Workflow.
Context (accepted_file : string -> bool).
Context (mint_doi : nat -> Submission -> string).

Local Abbreviation submit := (Workflow.submit accepted_file).
Local Abbreviation decide := (Workflow.decide mint_doi).
Local Abbreviation step := (Workflow.step accepted_file mint_doi).
Local Abbreviation reachable := (Workflow.reachable accepted_file mint_doi).

Lemma submit_inr f st paperId st' :
  submit f st = inr (paperId, st') ->
  paperId = next_id st
  /\ st' = {| manuscripts := <[next_id st := mk_manuscript f Pending None]> (manuscripts st);
              next_id := S (next_id st) |}.
Proof.
  unfold Workflow.submit. intros H.
  repeat match type of H with
         | (if ?b then _ else _) = _ => destruct b; [discriminate H|]
         end.
  by injection H as <- <-.
Qed.

Lemma decide_inr who paperId v comment st st' :
  decide who paperId v comment st = inr st' ->
  exists m,
    manuscripts st !! paperId = Some m /\ m_status m = Pending
    /\ st' = {| manuscripts :=
                  <[paperId := match v with
                               | approve => mk_manuscript (m_fields m) Approved
                                              (Some (mint_doi paperId (m_fields m)))
                               | reject => mk_manuscript (m_fields m) Rejected None
                               end]> (manuscripts st);
                next_id := next_id st |}.
Proof.
  unfold Workflow.decide. intros H.
  destruct (negb _); [discriminate H|].
  destruct (manuscripts st !! paperId) as [m|]; [|discriminate H].
  destruct (m_status m) eqn:E; try discriminate H.
  injection H as <-. by exists m.
Qed.

Lemma step_ids_below_next st st' :
  step st st' -> ids_below_next st -> ids_below_next st'.
Proof.
  intros Hstep Hwf i m. destruct Hstep as [f st paperId st' H | who paperId v c st st' H].
  - apply submit_inr in H as [_ ->]. cbn. intros Hi.
    apply lookup_insert_Some in Hi as [[<- _]|[_ Hi]]; [lia|].
    apply Hwf in Hi. lia.
  - apply decide_inr in H as (m0 & Hm0 & _ & ->). cbn. intros Hi.
    apply lookup_insert_Some in Hi as [[<- _]|[_ Hi]]; [by apply Hwf in Hm0 | by apply Hwf in Hi].
Qed.

Lemma reachable_ids_below_next st : reachable st -> ids_below_next st.
Proof.
  induction 1 as [|st st' _ IH Hstep]; [|by eapply step_ids_below_next].
  intros i m Hi. cbn in Hi. by rewrite lookup_empty in Hi.
Qed.

Lemma step_keeps_invariant st st' :
  step st st' ->
  (forall i m, manuscripts st !! i = Some m -> doi_iff_approved m) ->
  forall i m, manuscripts st' !! i = Some m -> doi_iff_approved m.
Proof.
  intros Hstep Hinv i m. destruct Hstep as [f st paperId st' H | who paperId v c st st' H].
  - apply submit_inr in H as [_ ->]. cbn. intros Hi.
    apply lookup_insert_Some in Hi as [[_ <-]|[_ Hi]]; [|by eapply Hinv].
    unfold doi_iff_approved. cbn. split; [discriminate | congruence].
  - apply decide_inr in H as (m0 & _ & _ & ->). cbn. intros Hi.
    apply lookup_insert_Some in Hi as [[_ <-]|[_ Hi]]; [|by eapply Hinv].
    unfold doi_iff_approved. destruct v; cbn; split; congruence.
Qed.

(** A decided manuscript is never touched again. *)
Lemma step_keeps_decided st st' paperId m :
  step st st' -> ids_below_next st ->
  manuscripts st !! paperId = Some m -> m_status m <> Pending ->
  manuscripts st' !! paperId = Some m.
Proof.
  intros Hstep Hwf Hm Hdone.
  destruct Hstep as [f st i st' H | who i v c st st' H].
  - apply submit_inr in H as [_ ->]. cbn.
    apply Hwf in Hm as Hlt. rewrite lookup_insert_ne by lia. done.
  - apply decide_inr in H as (m0 & Hm0 & Hpending & ->). cbn.
    destruct (base.decide (i = paperId)) as [->|Hne]; [congruence|].
    by rewrite lookup_insert_ne.
Qed.

Lemma steps_keep_decided st st' paperId m :
  rtc step st st' -> ids_below_next st ->
  manuscripts st !! paperId = Some m -> m_status m <> Pending ->
  manuscripts st' !! paperId = Some m.
Proof.
  induction 1 as [|st st1 st' Hstep _ IH]; [done|].
  intros Hwf Hm Hdone. apply IH.
  - by eapply step_ids_below_next.
  - by eapply step_keeps_decided.
  - done.
Qed.

Lemma decide_on_decided who paperId v comment st m :
  canAccess who decideManuscript = true ->
  manuscripts st !! paperId = Some m -> m_status m <> Pending ->
  decide who paperId v comment st = inl InvalidStateTransition.
Proof.
  intros Hcan Hm Hdone. unfold Workflow.decide. rewrite Hcan, Hm. cbn.
  by destruct (m_status m).
Qed.

(** C1.  In every store the workflow can reach, a manuscript is approved
    exactly when it has a doi; and a manuscript just created by [submit] is
    pending and has none. *)
Theorem doi_present_iff_approved (st : Store) :
  reachable st ->
  (forall paperId m, manuscripts st !! paperId = Some m ->
     (m_status m = Approved <-> m_doi m <> None))
  /\ (forall f paperId st', submit f st = inr (paperId, st') ->
       exists m, manuscripts st' !! paperId = Some m
                 /\ m_status m = Pending /\ m_doi m = None).
Proof.
  intros Hreach. split.
  - induction Hreach as [|st st' _ IH Hstep].
    + intros i m Hi. cbn in Hi. by rewrite lookup_empty in Hi.
    + by apply (step_keeps_invariant st st').
  - intros f paperId st' H. apply submit_inr in H as [-> ->]. cbn.
    exists (mk_manuscript f Pending None). by rewrite lookup_insert_eq.
Qed.

(** C3.  An authorised [decide] with [approve] on a pending manuscript moves
    it to [Approved]; whatever the workflow does afterwards it stays
    approved, and every later [decide] on it fails with
    [InvalidStateTransition].  The same failure meets [decide] on any
    manuscript already approved or rejected. *)
Theorem approve_happens_once (st : Store) (who : option Identity)
    (paperId : nat) (m : Manuscript) (comment : string) :
  reachable st ->
  canAccess who decideManuscript = true ->
  manuscripts st !! paperId = Some m ->
  m_status m = Pending ->
  (exists st',
      decide who paperId approve comment st = inr st'
      /\ forall st'', rtc step st' st'' ->
           (exists m', manuscripts st'' !! paperId = Some m' /\ m_status m' = Approved)
           /\ forall who' v comment',
                canAccess who' decideManuscript = true ->
                decide who' paperId v comment' st'' = inl InvalidStateTransition)
  /\ (forall st0 m0 who' v comment',
        manuscripts st0 !! paperId = Some m0 ->
        m_status m0 = Approved \/ m_status m0 = Rejected ->
        canAccess who' decideManuscript = true ->
        decide who' paperId v comment' st0 = inl InvalidStateTransition).
Proof.
  intros Hreach Hcan Hm Hpending. split.
  - eexists. split.
    + unfold Workflow.decide. rewrite Hcan, Hm, Hpending. cbn. reflexivity.
    + intros st'' Hsteps.
      set (m1 := mk_manuscript (m_fields m) Approved (Some (mint_doi paperId (m_fields m)))).
      assert (Hkept : manuscripts st'' !! paperId = Some m1).
      { eapply steps_keep_decided; [exact Hsteps | | cbn; apply lookup_insert_eq | done].
        eapply step_ids_below_next; [|by apply reachable_ids_below_next].
        eapply (step_decide _ _ who paperId approve comment).
        unfold Workflow.decide. rewrite Hcan, Hm, Hpending. cbn. reflexivity. }
      split; [by exists m1|].
      intros who' v comment' Hcan'. by eapply decide_on_decided.
  - intros st0 m0 who' v comment' Hm0 Hdone Hcan'.
    eapply decide_on_decided; [done | done |]. destruct Hdone; congruence.
Qed.

End WorkflowProperties.

Lemma demo_store1_reachable :
  Workflow.reachable Demo.accepted_file Demo.mint_doi Demo.store1.
Proof.
  eapply Workflow.reachable_step; [apply Workflow.reachable_empty|].
  by eapply (Workflow.step_submit _ _ Demo.submission Workflow.empty 0%nat).
Defined.

Lemma doi_present_iff_approved_witness :
  (Workflow.m_status (Workflow.mk_manuscript Demo.submission Workflow.Pending None)
     = Workflow.Approved
   <-> Workflow.m_doi (Workflow.mk_manuscript Demo.submission Workflow.Pending None)
       <> None)
  /\ exists m, Workflow.manuscripts
                 {| Workflow.manuscripts :=
                      <[1%nat := Workflow.mk_manuscript Demo.submission Workflow.Pending None]>
                        (Workflow.manuscripts Demo.store1);
                    Workflow.next_id := 2 |} !! 1%nat = Some m
               /\ Workflow.m_status m = Workflow.Pending /\ Workflow.m_doi m = None.
Proof.
  destruct (doi_present_iff_approved Demo.accepted_file Demo.mint_doi Demo.store1
              demo_store1_reachable) as [Hinv Hfresh].
  split.
  - apply (Hinv 0%nat). reflexivity.
  - apply (Hfresh Demo.submission). reflexivity.
Defined.

Lemma approve_happens_once_witness :
  exists st',
    Workflow.decide Demo.mint_doi (Some Demo.editor) 0 Workflow.approve "Bien" Demo.store1
      = inr st'
    /\ Workflow.decide Demo.mint_doi (Some Demo.editor) 0 Workflow.reject "Otra vez" st'
       = inl Workflow.InvalidStateTransition.
Proof.
  destruct (approve_happens_once Demo.accepted_file Demo.mint_doi Demo.store1
              (Some Demo.editor) 0%nat
              (Workflow.mk_manuscript Demo.submission Workflow.Pending None) "Bien"
              demo_store1_reachable eq_refl eq_refl eq_refl)
    as [(st' & Hdecide & Hlater) _].
  exists st'. split; [exact Hdecide|].
  destruct (Hlater st' (rtc_refl _ _)) as [_ Hfail].
  by apply Hfail.
Defined.

(** * Further properties of the components *)

(** Splits on the outcome of the next call whose answer the goal inspects. *)
Ltac case_outcome :=
  match goal with
  | |- context [match ?x with Returned _ => _ | Thrown _ => _ end] =>
      destruct x eqn:?; cbn
  end.

(** ** Session: restore, logout and their composition with login *)

Section SessionLifecycle.
Import AuthProvider.
Context (api : Api).

(** [fetchCurrentUser] never throws.  It issues one [GET /current_user] and
    always clears [loading]; an answer becomes the identity and leaves the
    storage alone, a rejection erases the stored token and leaves the
    identity as it was. *)
Theorem fetchCurrentUser_outcome (token : jsval) (e : Env State) :
  let '(r, e') := fetchCurrentUser api token e in
  r = Returned tt
  /\ loading (state e') = false
  /\ requests (browser e') = requests (browser e) ++ [current_user_request token]
  /\ match GET_current_user api (requests (browser e)) (current_user_request token) with
     | Returned found =>
         user (state e') = found
         /\ localStorage (browser e') = localStorage (browser e)
     | Thrown _ =>
         user (state e') = user (state e)
         /\ localStorage (browser e') = delete "token" (localStorage (browser e))
     end.
Proof.
  unfold fetchCurrentUser. js_run.
  destruct (GET_current_user api _ _); cbn; done.
Qed.

(** After [restore] on an empty session, an identity is held only together
    with a stored token that the identity store has just accepted; and a
    non-empty token that is still stored has been accepted.  [restore] never
    throws and always clears [loading]. *)
Theorem restore_keeps_only_validated_token (e : Env State) :
  let '(r, e') := restore api e in
  r = Returned tt
  /\ loading (state e') = false
  /\ (user (state e) = JNull -> user (state e') <> JNull ->
      exists t, localStorage (browser e') !! "token" = Some t /\ t <> ""
                /\ GET_current_user api (requests (browser e)) (current_user_request (JStr t))
                   = Returned (user (state e')))
  /\ (forall t, localStorage (browser e') !! "token" = Some t -> t <> "" ->
      exists identity,
        GET_current_user api (requests (browser e)) (current_user_request (JStr t))
        = Returned identity).
Proof.
  unfold restore, fetchCurrentUser. js_run.
  destruct (localStorage (browser e) !! "token") as [t|] eqn:Ht; cbn.
  - destruct (String.eqb t "") eqn:Hempty; cbn.
    + apply String.eqb_eq in Hempty as ->.
      repeat split; [congruence|]. intros t Hstored. rewrite Ht in Hstored. congruence.
    + apply String.eqb_neq in Hempty.
      destruct (GET_current_user api _ _) as [found|err] eqn:Hget; cbn.
      * repeat split.
        -- intros _ _. exists t. by rewrite Ht, Hget.
        -- intros t' Hstored Hne. rewrite Ht in Hstored. injection Hstored as <-.
           by exists found.
      * repeat split; [congruence|].
        intros t' Hstored. by rewrite lookup_delete_eq in Hstored.
  - repeat split; [congruence|]. intros t Hstored. by rewrite Ht in Hstored.
Qed.

(** A stored token that the identity store rejects is erased by [restore];
    the session stays as it was and the rejection is not raised. *)
Theorem restore_erases_stale_token (e : Env State) (t : string) (err : js_error) :
  localStorage (browser e) !! "token" = Some t ->
  t <> "" ->
  GET_current_user api (requests (browser e)) (current_user_request (JStr t)) = Thrown err ->
  let '(r, e') := restore api e in
  r = Returned tt
  /\ localStorage (browser e') = delete "token" (localStorage (browser e))
  /\ user (state e') = user (state e)
  /\ loading (state e') = false
  /\ console (browser e') = console (browser e).
Proof.
  intros Ht Hne Hrej. unfold restore, fetchCurrentUser. js_run.
  rewrite Ht. cbn. apply String.eqb_neq in Hne. rewrite Hne. cbn.
  rewrite Hrej. cbn. done.
Qed.

(** [logout] from any session leaves no token and no identity, touches no
    other key of the storage, issues no request, and doing it twice is doing
    it once. *)
Theorem logout_clears_session (e : Env State) :
  let '(r, e') := logout e in
  r = Returned tt
  /\ localStorage (browser e') !! "token" = None
  /\ (forall key, key <> "token" ->
        localStorage (browser e') !! key = localStorage (browser e) !! key)
  /\ user (state e') = JNull
  /\ loading (state e') = loading (state e)
  /\ requests (browser e') = requests (browser e)
  /\ logout e' = (Returned tt, e').
Proof.
  unfold logout, setUser. js_run.
  split; [done|]. split; [apply lookup_delete_eq|].
  split; [intros key Hkey; by apply lookup_delete_ne|].
  repeat split. unfold set_localStorage. cbn. by rewrite delete_delete_eq.
Qed.

(** [logout] followed by [restore]: the session is empty, loading has ended,
    no request has been issued and nothing is thrown. *)
Theorem logout_then_restore (e : Env State) :
  let '(_, e1) := logout e in
  let '(r, e2) := restore api e1 in
  r = Returned tt
  /\ user (state e2) = JNull
  /\ localStorage (browser e2) !! "token" = None
  /\ loading (state e2) = false
  /\ requests (browser e2) = requests (browser e).
Proof.
  unfold logout, restore, setUser, setLoading. js_run.
  rewrite lookup_delete_eq. cbn. rewrite lookup_delete_eq. done.
Qed.

(** What [login] stores is what a later page load presents: after a [login]
    that obtained the token [tok], [restore] on a freshly mounted provider
    asks for the current user with [Bearer tok]. *)
Theorem login_then_restore (email password tok : string) (e : Env State)
    (data identity : jsval) :
  POST_token api (requests (browser e)) (token_request email password) = Returned data ->
  get_prop data "access_token" = Returned (JStr tok) ->
  tok <> "" ->
  GET_current_user api (requests (browser e) ++ [token_request email password])
    (current_user_request (JStr tok)) = Returned identity ->
  let '(_, e1) := login api email password e in
  let '(r, e2) := restore api (mk_env (browser e1) initial) in
  r = Returned tt
  /\ requests (browser e2) = requests (browser e1) ++ [current_user_request (JStr tok)]
  /\ authorization (current_user_request (JStr tok)) = Some ("Bearer " +:+ tok).
Proof.
  intros Htoken Hfield Hne Huser.
  unfold login, restore, fetchCurrentUser, setUser, setLoading. js_run.
  rewrite Htoken. cbn. rewrite Hfield. cbn. rewrite Huser. cbn.
  rewrite lookup_insert_eq. cbn. apply String.eqb_neq in Hne. rewrite Hne. cbn.
  case_outcome; done.
Qed.

(** [login] does not check that the answer carries a token: when the body is
    an object without [access_token], the text [undefined] is stored and
    presented as the bearer, and [login] returns the body all the same; the
    stored text stays if the identity is then resolved and is removed if it
    is not. *)
Theorem login_without_access_token (email password : string) (e : Env State)
    (fields : list (string * jsval)) :
  POST_token api (requests (browser e)) (token_request email password)
  = Returned (JObj fields) ->
  assoc "access_token" fields = None ->
  let '(r, e') := login api email password e in
  r = Returned (JObj fields)
  /\ requests (browser e') =
     requests (browser e) ++ [token_request email password; current_user_request JUndefined]
  /\ authorization (current_user_request JUndefined) = Some "Bearer undefined"
  /\ match GET_current_user api (requests (browser e) ++ [token_request email password])
             (current_user_request JUndefined) with
     | Returned found =>
         localStorage (browser e') !! "token" = Some "undefined"
         /\ user (state e') = found
     | Thrown _ =>
         localStorage (browser e') !! "token" = None
         /\ user (state e') = user (state e)
     end.
Proof.
  intros Htoken Hmissing. unfold login, fetchCurrentUser. js_run.
  rewrite Htoken. cbn. rewrite Hmissing. cbn.
  destruct (GET_current_user api _ _); cbn; rewrite <- app_assoc; cbn.
  - by rewrite lookup_insert_eq.
  - by rewrite lookup_delete_eq.
Qed.

End SessionLifecycle.

(** ** The message box of the forms *)

Lemma prefix_append (p s : string) : String.prefix p (p +:+ s) = true.
Proof.
  induction p as [|c p IH].
  - change ("" +:+ s) with s. by destruct s.
  - change (String c p +:+ s) with (String c (p +:+ s)). cbn.
    destruct (Ascii.ascii_dec c c); [exact IH | done].
Qed.

Lemma includes_of_prefix (needle s : string) :
  String.prefix needle s = true -> includes needle s = true.
Proof. intros H. destruct s; cbn [includes]; by rewrite H. Qed.

Lemma includes_prefix (p s : string) : includes p (p +:+ s) = true.
Proof. apply includes_of_prefix, prefix_append. Qed.

Lemma error_message_class (rest : string) :
  message_class ("Error" +:+ rest) = "message error".
Proof. unfold message_class. by rewrite includes_prefix. Qed.

(** What the forms show for a failure: the [detail] of the server's answer
    when it is a non-empty text, the message of the error when the server
    did not answer or answered without a [detail]. *)
Theorem error_detail_shown (error : js_error) :
  (err_response error = None ->
   ToString (SubmitPaper.error_detail error) = err_message error)
  /\ (forall status fields,
        err_response error = Some (status, JObj fields) ->
        assoc "detail" fields = None ->
        ToString (SubmitPaper.error_detail error) = err_message error)
  /\ (forall status fields detail,
        err_response error = Some (status, JObj fields) ->
        assoc "detail" fields = Some (JStr detail) ->
        detail <> "" ->
        ToString (SubmitPaper.error_detail error) = detail).
Proof.
  unfold SubmitPaper.error_detail, js_or. split; [|split].
  - by intros ->.
  - intros status fields -> Hnone. cbn. by rewrite Hnone.
  - intros status fields detail -> Hsome Hne. cbn. rewrite Hsome. cbn.
    apply String.eqb_neq in Hne. by rewrite Hne.
Qed.

(** ** Login page *)

Section LoginPage.
Import Login.
Context (api : Api).
Context (POST_register : list Request -> Request -> js_result jsval).

(** Signing in through the page never throws and always clears [loading].
    A rejected [POST /token] is shown as an error message, with no
    navigation and the session untouched.  Once a token is issued the page
    navigates to [/] with an empty message, whether or not the identity
    could then be resolved; the session holds the identity only if it was. *)
Theorem handleSubmit_signs_in (fd : FormData) (e : Env Cells) :
  let '(r, e') := handleSubmit api POST_register true fd e in
  let treq := AuthProvider.token_request (email fd) (password fd) in
  r = Returned tt
  /\ loading (state e').2 = false
  /\ isLogin (state e').2 = isLogin (state e).2
  /\ match POST_token api (requests (browser e)) treq with
     | Thrown err =>
         message (state e').2 = "Error: " +:+ ToString (SubmitPaper.error_detail err)
         /\ message_class (message (state e').2) = "message error"
         /\ navigated (state e').2 = navigated (state e).2
         /\ (state e').1 = (state e).1
         /\ localStorage (browser e') = localStorage (browser e)
     | Returned data =>
         match get_prop data "access_token" with
         | Thrown err =>
             message (state e').2 = "Error: " +:+ err_message err
             /\ navigated (state e').2 = navigated (state e).2
             /\ (state e').1 = (state e).1
             /\ localStorage (browser e') = localStorage (browser e)
         | Returned token =>
             message (state e').2 = ""
             /\ navigated (state e').2 = navigated (state e).2 ++ ["/"]
             /\ AuthProvider.user (state e').1 =
                match GET_current_user api (requests (browser e) ++ [treq])
                        (AuthProvider.current_user_request token) with
                | Returned found => found
                | Thrown _ => AuthProvider.user (state e).1
                end
         end
     end.
Proof.
  unfold handleSubmit, AuthProvider.login, AuthProvider.fetchCurrentUser,
    AuthProvider.setUser, AuthProvider.setLoading,
    setLoading, setMessage, setIsLogin, navigate, set_page, zoom_fst.
  js_run. destruct e as [b [a s]]. cbn.
  destruct (POST_token api _ _) as [data|err] eqn:Htoken; cbn.
  - destruct (get_prop data "access_token") as [token|err] eqn:Hfield; cbn.
    + destruct (GET_current_user api _ _); cbn; done.
    + repeat split. destruct data; cbn in Hfield; try discriminate Hfield;
        injection Hfield as <-; reflexivity.
  - repeat split; try apply error_message_class.
Qed.

(** Registering through the page never throws, issues the one request that
    carries the five fields in the order of the form object, and never logs
    the user in: it does not navigate and leaves session and storage as they
    were.  On success the page shows its notice and switches to the sign-in
    form; on failure it shows an error message and stays. *)
Theorem handleSubmit_registers (fd : FormData) (e : Env Cells) :
  let '(r, e') := handleSubmit api POST_register false fd e in
  let rreq := AuthProvider.register_request (userData fd) in
  r = Returned tt
  /\ loading (state e').2 = false
  /\ navigated (state e').2 = navigated (state e).2
  /\ (state e').1 = (state e).1
  /\ localStorage (browser e') = localStorage (browser e)
  /\ requests (browser e') = requests (browser e) ++ [rreq]
  /\ body rreq = [ ("email", FText (email fd)); ("password", FText (password fd));
                   ("name", FText (name fd)); ("institution", FText (institution fd));
                   ("study_area", FText (study_area fd)) ]
  /\ match POST_register (requests (browser e)) rreq with
     | Returned _ =>
         message (state e').2
         = "Usuario registrado exitosamente. Ahora puedes iniciar sesión."
         /\ isLogin (state e').2 = true
     | Thrown err =>
         message (state e').2 = "Error: " +:+ ToString (SubmitPaper.error_detail err)
         /\ message_class (message (state e').2) = "message error"
         /\ isLogin (state e').2 = isLogin (state e).2
     end.
Proof.
  unfold handleSubmit, AuthProvider.register,
    setLoading, setMessage, setIsLogin, navigate, set_page, zoom_fst.
  js_run. destruct e as [b [a s]]. cbn.
  destruct (POST_register _ _); cbn; repeat split; try apply error_message_class.
Qed.

End LoginPage.

(** ** Paper form *)

Lemma required_nil (name value : string) :
  SubmitPaper.required name value = [] <-> value <> "".
Proof.
  unfold SubmitPaper.required. destruct (String.eqb value "") eqn:E.
  - apply String.eqb_eq in E. split; [discriminate | congruence].
  - apply String.eqb_neq in E. done.
Qed.

Lemma email_validity_nil (valid_email : string -> bool) (name value : string) :
  SubmitPaper.email_validity valid_email name value = []
  <-> value <> "" /\ valid_email value = true.
Proof.
  unfold SubmitPaper.email_validity. destruct (String.eqb value "") eqn:E.
  - apply String.eqb_eq in E. split; [discriminate | intros [? _]; congruence].
  - apply String.eqb_neq in E. destruct (valid_email value); split; try done.
    intros [_ ?]; discriminate.
Qed.

Section PaperForm.
Import SubmitPaper.
Context (parseInt : string -> jsval).
Context (valueAsNumber : string -> option Q).
Context (valid_email : string -> bool).
Context (api : Api).

Lemma number_validity_nil (name value : string) :
  number_validity valueAsNumber name value = []
  <-> exists q, valueAsNumber value = Some q
                /\ (2000 <= q)%Q /\ (q <= 8000)%Q /\ is_integer q = true.
Proof.
  unfold number_validity. destruct (valueAsNumber value) as [q|].
  - rewrite !app_nil. split.
    + intros (H1 & H2 & H3). exists q.
      destruct (Qle_bool 2000 q) eqn:E1; [|discriminate H1].
      destruct (Qle_bool q 8000) eqn:E2; [|discriminate H2].
      destruct (is_integer q); [|discriminate H3].
      apply Qle_bool_iff in E1, E2. done.
    + intros (q' & [= <-] & H1 & H2 & H3).
      apply Qle_bool_iff in H1, H2. by rewrite H1, H2, H3.
  - split; [discriminate | intros (q & ? & _); discriminate].
Qed.

Lemma form_validity_nil (fd : FormData) :
  form_validity valueAsNumber valid_email fd = [] <-> complete valueAsNumber valid_email fd.
Proof.
  unfold form_validity, complete.
  rewrite !app_nil, !required_nil, email_validity_nil, number_validity_nil.
  assert (Hfile : match file fd with
                  | None => [("file", valueMissing)]
                  | Some _ => []
                  end = [] <-> exists f, file fd = Some f).
  { destruct (file fd) as [f|]; split; [eauto | done | discriminate |].
    intros [f Hf]. discriminate Hf. }
  tauto.
Qed.

(** Pressing the submit button runs [handleSubmit] exactly when the button
    is enabled and the form is complete; the request then sent carries the
    form as it stood. *)
Theorem press_submit_submits_complete_forms (e : Env State) :
  (exists r e', press_submit parseInt valueAsNumber valid_email api e = (Submitted r, e'))
  <-> loading (state e) = false
      /\ complete valueAsNumber valid_email (formData (state e)).
Proof.
  unfold press_submit. destruct (loading (state e)).
  - split; [intros (r & e' & H); discriminate H | intros [H _]; discriminate H].
  - rewrite <- form_validity_nil.
    destruct (form_validity valueAsNumber valid_email (formData (state e))) as [|p l].
    + destruct (handleSubmit parseInt api (formData (state e)) e) as [r e'].
      split; [done | eauto].
    + split; [intros (r & e' & H); discriminate H | intros [_ H]; discriminate H].
Qed.

(** [handleSubmit] never throws and sends exactly one request, with no retry;
    it always clears [loading] and leaves the form as it was.  A rejection,
    or an answer without a body to read [doi] from, is shown as an error
    message and schedules nothing; an answer is shown with its [doi] and
    schedules the move to [/papers] after three seconds. *)
Theorem handleSubmit_outcome (fd : FormData) (e : Env State) :
  let '(r, e') := handleSubmit parseInt api fd e in
  r = Returned tt
  /\ loading (state e') = false
  /\ formData (state e') = formData (state e)
  /\ requests (browser e') = requests (browser e) ++ [submit_request parseInt fd]
  /\ match POST_submit_paper api (requests (browser e)) (submit_request parseInt fd) with
     | Thrown err =>
         message (state e') = "Error al enviar el paper: " +:+ ToString (error_detail err)
         /\ message_class (message (state e')) = "message error"
         /\ timers (browser e') = timers (browser e)
     | Returned data =>
         match get_prop data "doi" with
         | Thrown err =>
             message (state e') = "Error al enviar el paper: " +:+ err_message err
             /\ timers (browser e') = timers (browser e)
         | Returned doi =>
             message (state e') = "Paper enviado exitosamente. DOI: " +:+ ToString doi
             /\ timers (browser e') = timers (browser e) ++ [(3000%nat, "/papers")]
         end
     end.
Proof.
  unfold handleSubmit, setLoading, setMessage. js_run.
  destruct (POST_submit_paper api _ _) as [data|err]; cbn.
  - destruct (get_prop data "doi") as [doi|err] eqn:Hdoi; cbn; [done|].
    repeat split. destruct data; cbn in Hdoi; try discriminate Hdoi;
      injection Hdoi as <-; reflexivity.
  - repeat split; try apply error_message_class.
Qed.

End PaperForm.

(** ** Reviewer application form *)

Lemma file_required_nil (name : string) (f : option string) :
  ApplyAdmin.file_required name f = [] <-> exists chosen, f = Some chosen.
Proof.
  destruct f as [chosen|]; cbn; split; [eauto | done | discriminate |].
  intros [chosen H]. discriminate H.
Qed.

Section ApplicationForm.
Import ApplyAdmin.
Context (valid_email : string -> bool).
Context (POST_apply_admin : list Request -> Request -> js_result jsval).

Lemma apply_form_validity_nil (fd : FormData) :
  form_validity valid_email fd = [] <-> complete valid_email fd.
Proof.
  unfold form_validity, complete.
  rewrite !app_nil, !required_nil, email_validity_nil, !file_required_nil. tauto.
Qed.

(** Pressing "Enviar Solicitud" runs [handleSubmit] exactly when the button
    is enabled, every text control is filled, the e-mail is well formed and
    both files are chosen.  Nothing else is asked of the motivation letter:
    any text that is not empty will do. *)
Theorem press_submit_applies_complete_forms (e : Env State) :
  (exists r e', press_submit valid_email POST_apply_admin e = (SubmitPaper.Submitted r, e'))
  <-> loading (state e) = false /\ complete valid_email (formData (state e)).
Proof.
  unfold press_submit. destruct (loading (state e)).
  - split; [intros (r & e' & H); discriminate H | intros [H _]; discriminate H].
  - rewrite <- apply_form_validity_nil.
    destruct (form_validity valid_email (formData (state e))) as [|p l].
    + destruct (handleSubmit POST_apply_admin (formData (state e)) e) as [r e'].
      split; [done | eauto].
    + split; [intros (r & e' & H); discriminate H | intros [_ H]; discriminate H].
Qed.

(** [handleSubmit] never throws and sends exactly one request, which lists
    the nine fields in the order of the form object, the two files as files;
    it always clears [loading].  A rejection is shown as an error message
    and schedules nothing; an answer is shown as the notice of success and
    schedules the move to [/] after three seconds. *)
Theorem apply_handleSubmit_outcome (fd : FormData) (e : Env State) :
  let '(r, e') := handleSubmit POST_apply_admin fd e in
  r = Returned tt
  /\ loading (state e') = false
  /\ formData (state e') = formData (state e)
  /\ requests (browser e') = requests (browser e) ++ [apply_request fd]
  /\ map fst (body (apply_request fd)) =
     ["name"; "email"; "institution"; "cv"; "motivation_letter"; "specialization";
      "references"; "experience"; "certificates"]
  /\ (forall f, cv fd = Some f -> ("cv", FFile f) ∈ body (apply_request fd))
  /\ (forall f, certificates fd = Some f ->
        ("certificates", FFile f) ∈ body (apply_request fd))
  /\ match POST_apply_admin (requests (browser e)) (apply_request fd) with
     | Thrown err =>
         message (state e')
         = "Error al enviar la solicitud: " +:+ ToString (SubmitPaper.error_detail err)
         /\ message_class (message (state e')) = "message error"
         /\ timers (browser e') = timers (browser e)
     | Returned _ =>
         message (state e') = "Solicitud enviada exitosamente. Te contactaremos pronto."
         /\ message_class (message (state e')) = "message success"
         /\ timers (browser e') = timers (browser e) ++ [(3000%nat, "/")]
     end.
Proof.
  unfold handleSubmit, setLoading, setMessage. js_run.
  assert (Hcv : forall f, cv fd = Some f -> ("cv", FFile f) ∈ body (apply_request fd)).
  { intros f Hf. unfold apply_request, submitData. cbn. rewrite Hf. cbn.
    do 3 apply list_elem_of_further. apply list_elem_of_here. }
  assert (Hcert : forall f, certificates fd = Some f ->
                            ("certificates", FFile f) ∈ body (apply_request fd)).
  { intros f Hf. unfold apply_request, submitData. cbn. rewrite Hf. cbn.
    do 8 apply list_elem_of_further. apply list_elem_of_here. }
  destruct (POST_apply_admin _ _) as [data|err]; cbn.
  - repeat split; try done.
  - repeat split; try done; try apply error_message_class.
Qed.

End ApplicationForm.

(** ** Catalogue: filters *)

Section CatalogueFilters.
Import Papers.
Context (api : Api).

(** The query of the catalogue carries a filter exactly when the filter is
    not empty, under its own key and in the order category, author,
    institution; it never asks for a status and carries no credentials. *)
Theorem search_params_sends_set_filters (f : Filters) :
  (forall k v, (k, v) ∈ search_params f <->
     v <> "" /\ ((k = "category" /\ v = f_category f)
                 \/ (k = "author" /\ v = f_author f)
                 \/ (k = "institution" /\ v = f_institution f)))
  /\ (map fst (search_params f)) `sublist_of` ["category"; "author"; "institution"]
  /\ (forall v, ("status", v) ∉ search_params f)
  /\ authorization (papers_request f) = None
  /\ (f_category f = "" -> f_author f = "" -> f_institution f = "" ->
      search_params f = []).
Proof.
  assert (Hiff : forall k v, (k, v) ∈ search_params f <->
     v <> "" /\ ((k = "category" /\ v = f_category f)
                 \/ (k = "author" /\ v = f_author f)
                 \/ (k = "institution" /\ v = f_institution f))).
  { intros k v. unfold search_params. rewrite list_elem_of_filter. cbn.
    rewrite !elem_of_cons, elem_of_nil. split.
    - intros [Hne [H|[H|[H|[]]]]]; injection H as -> ->; tauto.
    - intros [Hne [[-> ->]|[[-> ->]|[-> ->]]]]; tauto. }
  split; [exact Hiff|]. split; [|split; [|split]].
  - unfold search_params. rewrite !filter_cons, filter_nil. cbn.
    repeat case_decide; cbn; repeat constructor.
  - intros v Hin. apply Hiff in Hin as [_ [[H _]|[[H _]|[H _]]]]; discriminate H.
  - reflexivity.
  - intros H1 H2 H3. unfold search_params. cbn. rewrite H1, H2, H3. reflexivity.
Qed.

End CatalogueFilters.

Lemma filter_key_sent (name : Papers.filter_name) (f : Papers.Filters) :
  (Papers.filter_key name, Papers.filter_value name f) ∈ Papers.search_params f
  <-> Papers.filter_value name f <> "".
Proof.
  unfold Papers.search_params. rewrite list_elem_of_filter. cbn.
  split; [tauto|]. intros Hne. split; [done|]. destruct name; cbn.
  - apply list_elem_of_here.
  - apply list_elem_of_further, list_elem_of_here.
  - do 2 apply list_elem_of_further. apply list_elem_of_here.
Qed.

Section CatalogueTyping.
Import Papers.
Context (api : Api).

(** Typing into a filter input sets that filter and no other, and fetches
    once with the filters as they then stand: the key of the input is in the
    query exactly when the text typed is not empty.  The call never throws
    and clears [loading]; the list shown becomes the answer, or stays as it
    was when the request fails. *)
Theorem type_filter_refetches (name : filter_name) (value : string) (e : Env State) :
  let '(r, e') := type_filter api name value e in
  let f' := filters (state e') in
  r = Returned tt
  /\ filter_value name f' = value
  /\ (forall other, other <> name ->
        filter_value other f' = filter_value other (filters (state e)))
  /\ requests (browser e') = requests (browser e) ++ [papers_request f']
  /\ ((filter_key name, value) ∈ params (papers_request f') <-> value <> "")
  /\ loading (state e') = false
  /\ papers (state e') =
     match GET_papers api (requests (browser e)) (papers_request f') with
     | Returned l => l
     | Thrown _ => papers (state e)
     end.
Proof.
  unfold type_filter, handleFilterChange, fetchPapers, setPapers, setLoading. js_run.
  destruct (GET_papers api _ _) eqn:Hget; cbn;
    (split; [done|]); (split; [by destruct name|]);
    (split; [intros other Hother; by destruct name, other|]);
    (split; [done|]);
    (split; [destruct name;
               [ exact (filter_key_sent category_filter (mk_filters value _ _))
               | exact (filter_key_sent author_filter (mk_filters _ value _))
               | exact (filter_key_sent institution_filter (mk_filters _ _ value)) ]|]);
    (split; [done | by rewrite Hget]).
Qed.

End CatalogueTyping.

(** ** Admin console: loading and deciding *)

Lemma filtered_ids_exclude (l : list Paper) (paperId : string) :
  paperId ∉ map id (filter (fun p => id p ≠ paperId) l).
Proof.
  induction l as [|q l IH]; [apply not_elem_of_nil|].
  rewrite filter_cons. case_decide; [|exact IH].
  change (paperId ∉ id q :: map id (filter (fun p => id p ≠ paperId) l)).
  apply not_elem_of_cons. split; [congruence | exact IH].
Qed.

Lemma filtered_ids_keep (l : list Paper) (kept paperId : string) :
  kept ∈ map id l -> kept <> paperId ->
  kept ∈ map id (filter (fun p => id p ≠ paperId) l).
Proof.
  induction l as [|q l IH]; intros Hin Hne; [by apply elem_of_nil in Hin|].
  change (kept ∈ id q :: map id l) in Hin.
  rewrite filter_cons. apply elem_of_cons in Hin as [->|Hin].
  - rewrite decide_True by done. apply list_elem_of_here.
  - case_decide; [apply list_elem_of_further|]; by apply IH.
Qed.

Section Console.
Import AdminDashboard.
Context (api : Api).

(** The mount effect for an admin never throws.  It issues the request for
    the pending papers and then the one for the applications, both with the
    stored token as bearer (the text [null] when none is stored), and always
    clears [loading]; each list becomes the answer to its request, or stays
    as it was when that request fails. *)
Theorem effect_of_admin (user : jsval) (e : Env State) :
  effect_guard user = true ->
  let '(r, e') := effect api user e in
  let token := localStorage (browser e) !! "token" in
  r = Returned tt
  /\ requests (browser e') =
     requests (browser e) ++ [pending_request token; applications_request token]
  /\ authorization (pending_request token) = Some ("Bearer " +:+ default "null" token)
  /\ authorization (applications_request token) = Some ("Bearer " +:+ default "null" token)
  /\ loading (state e') = false
  /\ localStorage (browser e') = localStorage (browser e)
  /\ papers (state e') =
     match GET_papers api (requests (browser e)) (pending_request token) with
     | Returned l => l
     | Thrown _ => papers (state e)
     end
  /\ applications (state e') =
     match GET_admin_applications api (requests (browser e) ++ [pending_request token])
             (applications_request token) with
     | Returned l => l
     | Thrown _ => applications (state e)
     end.
Proof.
  intros Hguard. unfold effect. rewrite Hguard.
  unfold fetchPendingPapers, fetchApplications, setPapers, setApplications, setLoading.
  js_run.
  destruct (GET_papers api _ _); cbn;
    destruct (GET_admin_applications api _ _); cbn;
    rewrite <- app_assoc; done.
Qed.


Lemma handleReview_on_panel (user : jsval) (closure : list Paper)
    (paperId action : string) (e : Env State) :
  redirects user = false ->
  loading (state e) = false ->
  paperId ∈ map id (papers (state e)) ->
  handleReview api user closure paperId action e =
    let r := review_request (localStorage (browser e) !! "token") paperId action
               (default "" (comments (browser e) !! paperId)) in
    match POST_review api (requests (browser e)) r with
    | Returned _ =>
        (Returned tt,
         mk_env (log_request r (browser e))
           {| papers := filter (fun p => id p ≠ paperId) closure;
              applications := applications (state e);
              loading := loading (state e) |})
    | Thrown err =>
        (Returned tt,
         mk_env (let b := log_request r (browser e) in
                 mk_browser (localStorage b) (requests b)
                   (console b ++ [("Error reviewing paper:", err)]) (timers b) (comments b))
           (state e))
    end.
Proof.
  intros Hadmin Hloaded Hin.
  unfold handleReview, comment_field, render, setPapers.
  js_run. rewrite ?Hadmin, ?Hloaded. cbn.
  rewrite bool_decide_eq_true_2 by done. cbn.
  destruct (POST_review api _ _); cbn; rewrite ?Hloaded; reflexivity.
Qed.

(** [handleReview] filters the list of the render it was created in, not the
    list as it stands.  When two reviews are started from the same render
    and both are acknowledged, the list ends as that render's list without
    the second paper only: the first paper, though decided, is listed
    again. *)
Theorem handleReview_from_same_render (user : jsval) (first second : string)
    (action1 action2 : string) (e : Env State) (ack : jsval) :
  redirects user = false ->
  loading (state e) = false ->
  first ∈ map id (papers (state e)) ->
  second ∈ map id (papers (state e)) ->
  first <> second ->
  (forall history request, POST_review api history request = Returned ack) ->
  let rendered := papers (state e) in
  let '(r1, e1) := handleReview api user rendered first action1 e in
  let '(r2, e2) := handleReview api user rendered second action2 e1 in
  r1 = Returned tt /\ r2 = Returned tt
  /\ (first ∉ map id (papers (state e1)))
  /\ papers (state e2) = filter (fun p => id p ≠ second) rendered
  /\ first ∈ map id (papers (state e2))
  /\ length (requests (browser e2)) = S (S (length (requests (browser e)))).
Proof.
  intros Hadmin Hloaded Hfirst Hsecond Hne Hack. cbn zeta.
  rewrite handleReview_on_panel by done. cbn zeta. rewrite Hack.
  rewrite handleReview_on_panel; cbn; [| done | done | by apply filtered_ids_keep].
  rewrite Hack.
  split; [done|]. split; [done|].
  split; [apply filtered_ids_exclude|]. split; [done|].
  split; [by apply filtered_ids_keep|].
  unfold log_request. cbn. rewrite !length_app. cbn. lia.
Qed.

(** Right after an acknowledged review of a paper, whatever list the handler
    was created with, the list it has written holds no entry for that paper:
    the console rendered from it has no button for the paper, and a press on
    it changes nothing and issues no request.  (A review started from an
    older render and acknowledged later can list the paper again, as the
    statement above shows.) *)
Theorem acknowledged_review_leaves_no_button (user : jsval) (closure : list Paper)
    (paperId action : string) (again : decision) (e : Env State) (ack : jsval) :
  plain_identifier paperId = true ->
  redirects user = false ->
  loading (state e) = false ->
  paperId ∈ map id (papers (state e)) ->
  POST_review api (requests (browser e))
    (review_request (localStorage (browser e) !! "token") paperId action
       (default "" (comments (browser e) !! paperId))) = Returned ack ->
  let '(r, e1) := handleReview api user closure paperId action e in
  r = Returned tt
  /\ papers (state e1) = filter (fun p => id p ≠ paperId) closure
  /\ (paperId ∉ map id (papers (state e1)))
  /\ comment_field (browser e1) (render user (state e1)) paperId = None
  /\ press_review api user paperId again e1 = (NoButton, e1).
Proof.
  intros _ Hadmin Hloaded Hin Hack.
  rewrite handleReview_on_panel by done. cbn zeta. rewrite Hack.
  split; [done|]. split; [done|]. split; [apply filtered_ids_exclude|].
  unfold press_review, comment_field, render. cbn. rewrite Hadmin, Hloaded.
  rewrite !bool_decide_eq_false_2 by apply filtered_ids_exclude. done.
Qed.

End Console.

Section ConsoleEdges.
Import AdminDashboard.
Context (api : Api).

(** [handleReview] reads the comment before its [try].  When the page has no
    card for the paper (the caller is no admin, the console is still
    loading, or the paper is not listed) the read fails: a [TypeError] is
    thrown to the caller, no request is issued and nothing changes. *)
Theorem handleReview_without_card (user : jsval) (closure : list Paper)
    (paperId action : string) (e : Env State) :
  redirects user = true \/ loading (state e) = true
  \/ paperId ∉ map id (papers (state e)) ->
  handleReview api user closure paperId action e =
    (Thrown (TypeError "Cannot read properties of null (reading 'value')"), e).
Proof.
  intros Hwhy. unfold handleReview, comment_field, render. js_run.
  destruct (redirects user); [done|].
  destruct (loading (state e)); [done|]. cbn.
  destruct Hwhy as [H|[H|H]]; [discriminate H | discriminate H |].
  by rewrite bool_decide_eq_false_2.
Qed.

End ConsoleEdges.

(** ** The statements above at the sample data *)

Lemma restore_erases_stale_token_witness :
  let '(r, e') := AuthProvider.restore Demo.api_ok (Demo.returning "old") in
  r = Returned tt
  /\ localStorage (browser e') !! "token" = None
  /\ AuthProvider.user (state e') = JNull
  /\ AuthProvider.loading (state e') = false.
Proof.
  pose proof (restore_erases_stale_token Demo.api_ok (Demo.returning "old") "old"
                Demo.unauthorized eq_refl) as H.
  destruct (AuthProvider.restore Demo.api_ok (Demo.returning "old")) as [r e'].
  destruct H as (Hr & Hstore & Huser & Hload & _); [discriminate | reflexivity |].
  split; [exact Hr|]. split; [|split; [exact Huser | exact Hload]].
  rewrite Hstore. apply lookup_delete_eq.
Defined.

Lemma login_then_restore_witness :
  let '(_, e1) := AuthProvider.login Demo.api_ok "ana@uc.cl" "secreto" Demo.anonymous in
  let '(r, e2) := AuthProvider.restore Demo.api_ok
                    (mk_env (browser e1) AuthProvider.initial) in
  r = Returned tt
  /\ requests (browser e2) =
     requests (browser e1) ++ [AuthProvider.current_user_request (JStr "tok-1")]
  /\ authorization (AuthProvider.current_user_request (JStr "tok-1"))
     = Some "Bearer tok-1".
Proof.
  apply (login_then_restore Demo.api_ok "ana@uc.cl" "secreto" "tok-1" Demo.anonymous
           Demo.token_body Demo.ana); [reflexivity | reflexivity | discriminate | reflexivity].
Defined.

Lemma login_without_access_token_witness :
  let '(r, e') := AuthProvider.login Demo.api_bare "ana@uc.cl" "secreto" Demo.anonymous in
  r = Returned (JObj [("token_type", JStr "bearer")])
  /\ localStorage (browser e') !! "token" = None.
Proof.
  pose proof (login_without_access_token Demo.api_bare "ana@uc.cl" "secreto"
                Demo.anonymous [("token_type", JStr "bearer")] eq_refl eq_refl) as H.
  destruct (AuthProvider.login Demo.api_bare "ana@uc.cl" "secreto" Demo.anonymous)
    as [r e'].
  cbn in H. destruct H as (Hr & _ & _ & Hstore & _). by split.
Defined.

Lemma effect_of_admin_witness :
  let '(r, e') := AdminDashboard.effect Demo.api_pending Demo.marta
                    Demo.mounting_console in
  r = Returned tt
  /\ requests (browser e') =
     [AdminDashboard.pending_request (Some "tok-9");
      AdminDashboard.applications_request (Some "tok-9")]
  /\ AdminDashboard.loading (state e') = false
  /\ AdminDashboard.papers (state e') = [Demo.paper1; Demo.paper2].
Proof.
  pose proof (effect_of_admin Demo.api_pending Demo.marta Demo.mounting_console
                eq_refl) as H.
  destruct (AdminDashboard.effect Demo.api_pending Demo.marta Demo.mounting_console)
    as [r e'].
  cbn in H. destruct H as (Hr & Hreq & _ & _ & Hload & _ & Hpapers & _).
  done.
Defined.

Lemma acknowledged_review_leaves_no_button_witness :
  let '(r, e1) := AdminDashboard.handleReview Demo.api_ok Demo.marta [Demo.paper1] "p1"
                    "approved" Demo.console_env in
  r = Returned tt
  /\ AdminDashboard.papers (state e1) = []
  /\ AdminDashboard.press_review Demo.api_ok Demo.marta "p1" AdminDashboard.Rechazar e1
     = (AdminDashboard.NoButton, e1).
Proof.
  pose proof (acknowledged_review_leaves_no_button Demo.api_ok Demo.marta [Demo.paper1]
                "p1" "approved" AdminDashboard.Rechazar Demo.console_env
                (JObj [("message", JStr "ok")]) eq_refl eq_refl eq_refl) as H.
  destruct (AdminDashboard.handleReview Demo.api_ok Demo.marta [Demo.paper1] "p1"
              "approved" Demo.console_env) as [r e1].
  destruct H as (Hr & Hlist & _ & _ & Hpress); [apply list_elem_of_here | reflexivity |].
  split; [exact Hr|]. split; [exact Hlist | exact Hpress].
Defined.


Lemma handleReview_from_same_render_witness :
  let '(r1, e1) := AdminDashboard.handleReview Demo.api_ok Demo.marta
                     [Demo.paper1; Demo.paper2] "p1" "approved" Demo.console_env in
  let '(r2, e2) := AdminDashboard.handleReview Demo.api_ok Demo.marta
                     [Demo.paper1; Demo.paper2] "p2" "rejected" e1 in
  AdminDashboard.papers (state e1) = [Demo.paper2]
  /\ AdminDashboard.papers (state e2) = [Demo.paper1].
Proof.
  pose proof (handleReview_from_same_render Demo.api_ok Demo.marta "p1" "p2"
                "approved" "rejected" Demo.console_env (JObj [("message", JStr "ok")])
                eq_refl eq_refl) as H.
  cbn zeta in H.
  change (AdminDashboard.papers (state Demo.console_env))
    with [Demo.paper1; Demo.paper2] in H.
  destruct (AdminDashboard.handleReview Demo.api_ok Demo.marta
              [Demo.paper1; Demo.paper2] "p1" "approved" Demo.console_env)
    as [r1 e1] eqn:E1.
  destruct (AdminDashboard.handleReview Demo.api_ok Demo.marta
              [Demo.paper1; Demo.paper2] "p2" "rejected" e1) as [r2 e2].
  destruct H as (_ & _ & _ & Hp2 & _).
  - apply list_elem_of_here.
  - apply list_elem_of_further, list_elem_of_here.
  - discriminate.
  - reflexivity.
  - split; [|exact Hp2]. vm_compute in E1. by injection E1 as _ <-.
Defined.

Lemma handleSubmit_signs_in_witness :
  let '(r, e') := Login.handleSubmit Demo.api_ok Demo.acknowledge true
                    (Demo.credentials "bad@x.com" "wrong") Demo.login_page in
  r = Returned tt
  /\ Login.message (state e').2 = "Error: Incorrect email or password"
  /\ Login.navigated (state e').2 = []
  /\ AuthProvider.user (state e').1 = JNull
  /\ localStorage (browser e') = ∅.
Proof.
  pose proof (handleSubmit_signs_in Demo.api_ok Demo.acknowledge
                (Demo.credentials "bad@x.com" "wrong") Demo.login_page) as H.
  destruct (Login.handleSubmit Demo.api_ok Demo.acknowledge true
              (Demo.credentials "bad@x.com" "wrong") Demo.login_page) as [r e'].
  cbn in H. destruct H as (Hr & _ & _ & Hmsg & _ & Hnav & Hsession & Hstore).
  split; [exact Hr|]. split; [exact Hmsg|]. split; [exact Hnav|].
  split; [by rewrite Hsession | exact Hstore].
Defined.

Lemma press_submit_applies_complete_forms_witness :
  exists r e',
    ApplyAdmin.press_submit Demo.valid_email Demo.acknowledge Demo.apply_env
    = (SubmitPaper.Submitted r, e').
Proof.
  apply (press_submit_applies_complete_forms Demo.valid_email Demo.acknowledge
           Demo.apply_env).
  split; [reflexivity|]. unfold ApplyAdmin.complete. cbn.
  repeat split; try discriminate; eauto.
Defined.

Lemma press_submit_submits_complete_forms_witness :
  exists r e',
    SubmitPaper.press_submit Demo.parseInt Demo.valueAsNumber Demo.valid_email
      Demo.api_ok (Demo.submit_env "3000") = (SubmitPaper.Submitted r, e').
Proof.
  apply (press_submit_submits_complete_forms Demo.parseInt Demo.valueAsNumber
           Demo.valid_email Demo.api_ok (Demo.submit_env "3000")).
  split; [reflexivity|]. unfold SubmitPaper.complete. cbn.
  repeat split; try discriminate; [|eauto].
  exists 3000%Q. repeat split; discriminate.
Defined.

Lemma login_identity_unresolved_witness :
  let '(r, e') := AuthProvider.login Demo.api_flaky "ana@uc.cl" "secreto" Demo.anonymous in
  r = Returned Demo.token_body
  /\ localStorage (browser e') !! "token" = None
  /\ AuthProvider.user (state e') = JNull
  /\ AuthProvider.loading (state e') = false.
Proof.
  apply (login_identity_unresolved Demo.api_flaky "ana@uc.cl" "secreto" Demo.anonymous
           Demo.token_body (JStr "tok-1") Demo.network_error); reflexivity.
Defined.

Lemma handleReview_off_panel_witness :
  AdminDashboard.handleReview Demo.api_ok Demo.ana [Demo.paper1; Demo.paper2] "p1"
    "approved" Demo.console_env
  = (Thrown (TypeError "Cannot read properties of null (reading 'value')"),
     Demo.console_env).
Proof.
  apply (handleReview_off_panel Demo.api_ok Demo.ana [Demo.paper1; Demo.paper2] "p1"
           "approved" Demo.console_env).
  reflexivity.
Defined.

Lemma handleReview_without_card_witness :
  AdminDashboard.handleReview Demo.api_ok Demo.marta [Demo.paper1; Demo.paper2] "p7"
    "approved" Demo.console_env
  = (Thrown (TypeError "Cannot read properties of null (reading 'value')"),
     Demo.console_env).
Proof.
  apply (handleReview_without_card Demo.api_ok Demo.marta [Demo.paper1; Demo.paper2]
           "p7" "approved" Demo.console_env).
  right. right. cbn. intros Hin.
  apply elem_of_cons in Hin as [Hin|Hin]; [discriminate Hin|].
  apply elem_of_cons in Hin as [Hin|Hin]; [discriminate Hin|].
  by apply elem_of_nil in Hin.
Defined.

(** ** Two defects: the word count sent, and overlapping reviews *)

(** C4.  With the text [3e3] in the word count control the form is valid,
    since the control reads 3000; [handleSubmit] runs and posts
    [parseInt('3e3')], that is [word_count = 3]: a submission whose word
    count is below 2000 goes out, reported as a success. *)
Theorem press_submit_posts_parseInt_of_text :
  let '(o, e') := SubmitPaper.press_submit Demo.parseInt_exponent
                    Demo.valueAsNumber_exponent Demo.valid_email Demo.api_ok
                    (Demo.submit_env "3e3") in
  SubmitPaper.form_validity Demo.valueAsNumber_exponent Demo.valid_email
    (Demo.form "3e3") = []
  /\ o = SubmitPaper.Submitted (Returned tt)
  /\ requests (browser e')
     = [SubmitPaper.submit_request Demo.parseInt_exponent (Demo.form "3e3")]
  /\ ("word_count", FText "3")
       ∈ body (SubmitPaper.submit_request Demo.parseInt_exponent (Demo.form "3e3"))
  /\ SubmitPaper.message (state e') = "Paper enviado exitosamente. DOI: 10.1234/rnce.9".
Proof.
  vm_compute. repeat split.
  do 7 apply list_elem_of_further. apply list_elem_of_here.
Qed.

(** C10.  Two reviews started from the same render of the console, on [p1]
    and then on [p2], both acknowledged.  After the first the list is
    [p2] alone; the second writes the list of its render without [p2], so
    the list ends as [p1] alone: it is not the previous list without [p2],
    and the decided [p1] is listed again. *)
Theorem overlapping_reviews_relist_decided_paper :
  let rendered := AdminDashboard.papers (state Demo.console_env) in
  let '(r1, e1) := AdminDashboard.handleReview Demo.api_ok Demo.marta rendered "p1"
                     "approved" Demo.console_env in
  let '(r2, e2) := AdminDashboard.handleReview Demo.api_ok Demo.marta rendered "p2"
                     "rejected" e1 in
  r1 = Returned tt /\ r2 = Returned tt
  /\ AdminDashboard.papers (state e1) = [Demo.paper2]
  /\ AdminDashboard.papers (state e2) = [Demo.paper1]
  /\ AdminDashboard.papers (state e2)
     <> filter (fun p => id p ≠ "p2") (AdminDashboard.papers (state e1))
  /\ (Demo.paper1 ∉ AdminDashboard.papers (state e1))
  /\ Demo.paper1 ∈ AdminDashboard.papers (state e2).
Proof.
  vm_compute. repeat split; try discriminate.
  - intros Hin. apply elem_of_cons in Hin as [Hin|Hin]; [discriminate Hin|].
    by apply elem_of_nil in Hin.
  - apply list_elem_of_here.
Qed.
